(** * decoding_json: a logical-decoding output plugin that renders change
    events as JSON-shaped text.

    Shallow embedding of [src/decoding_json.c].  A [StringInfo] is the text
    accumulated so far and every [appendStringInfo*] call returns the extended
    text; the callbacks pass the decoding context explicitly.  C strings are
    [string]s: the terminating NUL is [EmptyString]. *)

From Stdlib Require Import ZArith List Bool Lia.
From Stdlib Require Import Strings.Ascii Strings.String.
From Stdlib Require Import Numbers.DecimalString Numbers.DecimalN Numbers.DecimalFacts.
Import ListNotations.

Local Open Scope string_scope.
Local Open Scope Z_scope.

(** ** C string literals *)

(** The double-quote character (code 34), escaped with a backslash inside
    the C literals. *)
Definition dquote : ascii := "034"%char.

(** The single-quote character (code 39). *)
Definition squote : ascii := "039"%char.

(** [cstr] reads a C string literal of the source in which every escaped
    double quote is typed as a backquote, so that the literals below read
    like those of the source.  No literal of the source contains a
    backquote. *)
Fixpoint cstr (lit : string) : string :=
  match lit with
  | EmptyString => EmptyString
  | String c rest => String (if Ascii.eqb c "`" then dquote else c) (cstr rest)
  end.

(** ** StringInfo *)

Definition StringInfo := string.

Definition appendStringInfoString (s : StringInfo) (str : string) : StringInfo :=
  s ++ str.

Definition appendStringInfoChar (s : StringInfo) (ch : ascii) : StringInfo :=
  s ++ String ch EmptyString.

(** Arguments of the variadic [appendStringInfo]. *)
Inductive fmt_arg : Type :=
| ArgU (n : Z)
| ArgS (str : string).

(** [%u] takes an [unsigned int]: the argument modulo [2^32], in decimal. *)
Definition fmt_u (n : Z) : string :=
  NilZero.string_of_uint (N.to_uint (Z.to_N (n mod 2 ^ 32))).

(** The printf subset the plugin uses: [%u], [%s], and ordinary characters.
    Every call of the source passes the arguments its directives name; a
    directive without its argument is dropped. *)
Fixpoint format (fmt : string) (args : list fmt_arg) : string :=
  match fmt with
  | EmptyString => EmptyString
  | String c rest =>
      if Ascii.eqb c "%" then
        match rest with
        | String d rest' =>
            if Ascii.eqb d "u" then
              match args with
              | ArgU n :: args' => fmt_u n ++ format rest' args'
              | _ => format rest' args
              end
            else if Ascii.eqb d "s" then
              match args with
              | ArgS str :: args' => str ++ format rest' args'
              | _ => format rest' args
              end
            else String c (String d (format rest' args))
        | EmptyString => String c EmptyString
        end
      else String c (format rest args)
  end.

Definition appendStringInfo (s : StringInfo) (fmt : string) (args : list fmt_arg)
  : StringInfo :=
  s ++ format fmt args.

(** ** Type identifiers (catalog/pg_type.h) *)

Definition Oid := Z.

Definition BOOLOID : Oid := 16.
Definition INT8OID : Oid := 20.
Definition INT2OID : Oid := 21.
Definition INT4OID : Oid := 23.
Definition OIDOID : Oid := 26.
Definition FLOAT4OID : Oid := 700.
Definition FLOAT8OID : Oid := 701.
Definition BITOID : Oid := 1560.
Definition VARBITOID : Oid := 1562.
Definition NUMERICOID : Oid := 1700.

(** ** print_literal *)

(** [SQL_STR_DOUBLE(ch, escape_backslash)] is a macro of the host (c.h):
    true when [ch] is the single quote, or when [ch] is the backslash and
    [escape_backslash] is set. *)
Definition SQL_STR_DOUBLE (ch : ascii) (escape_backslash : bool) : bool :=
  Ascii.eqb ch squote || (Ascii.eqb ch "\"%char && escape_backslash).

(** [strcmp] as the source uses it: zero exactly on equal strings. *)
Definition strcmp (a b : string) : Z :=
  match String.compare a b with
  | Eq => 0
  | Lt => -1
  | Gt => 1
  end.

(** The [for (valptr = outputstr; *valptr; valptr++)] loop of the default
    case. *)
Fixpoint print_literal_loop (s : StringInfo) (valptr : string) : StringInfo :=
  match valptr with
  | EmptyString => s
  | String ch valptr' =>
      let s1 := if SQL_STR_DOUBLE ch false then appendStringInfoChar s ch else s in
      print_literal_loop (appendStringInfoChar s1 ch) valptr'
  end.

(** The cases of [switch (typid)], in source order. *)
Definition is_numeric_case (typid : Oid) : bool :=
  (typid =? INT2OID) || (typid =? INT4OID) || (typid =? INT8OID)
  || (typid =? OIDOID) || (typid =? FLOAT4OID) || (typid =? FLOAT8OID)
  || (typid =? NUMERICOID).

Definition is_bit_case (typid : Oid) : bool :=
  (typid =? BITOID) || (typid =? VARBITOID).

Definition print_literal (s : StringInfo) (typid : Oid) (outputstr : string)
  : StringInfo :=
  if is_numeric_case typid then
    appendStringInfoString s outputstr
  else if is_bit_case typid then
    appendStringInfo s (cstr "`B'%s'`") [ArgS outputstr]
  else if typid =? BOOLOID then
    if strcmp outputstr "t" =? 0 then appendStringInfoString s "true"
    else appendStringInfoString s "false"
  else
    let s1 := appendStringInfoChar s dquote in
    let s2 := print_literal_loop s1 outputstr in
    appendStringInfoChar s2 dquote.

(** The default case of the switch: none of the listed type identifiers. *)
Definition default_case (typid : Oid) : bool :=
  negb (is_numeric_case typid) && negb (is_bit_case typid)
  && negb (typid =? BOOLOID).

(** [double_char q str] is [str] with every occurrence of [q] written
    twice. *)
Fixpoint double_char (q : ascii) (str : string) : string :=
  match str with
  | EmptyString => EmptyString
  | String ch rest =>
      if Ascii.eqb ch q then String ch (String ch (double_char q rest))
      else String ch (double_char q rest)
  end.

Fixpoint count_char (c : ascii) (str : string) : nat :=
  match str with
  | EmptyString => O
  | String ch rest => if Ascii.eqb ch c then S (count_char c rest) else count_char c rest
  end.

(** ** Faults *)

(** A computation that reads memory either returns or faults ([None]): the
    backend dies and nothing is written. *)
Definition bind {A B : Type} (m : option A) (k : A -> option B) : option B :=
  match m with
  | Some a => k a
  | None => None
  end.

Notation "x <- m ;; k" := (bind m (fun x => k))
  (at level 61, m at next level, right associativity).

(** ** The host interface *)

(** Addresses; [NULL] is address zero. *)
Definition Pointer := Z.
Definition NULL : Pointer := 0.

(** What the plugin takes from the host's headers and catalogs: the datum
    type with its varlena tests, the type output functions, the name
    lookups, the identifier quoting of ruleutils.c, and the layout of
    [ReorderBufferTupleBuf] (the offset of its member [tuple]). *)
Class Host : Type := {
  Datum : Type;
  NullDatum : Datum;
  getTypeOutputInfo : Oid -> Oid * bool;
  OidOutputFunctionCall : Oid -> Datum -> string;
  VARATT_IS_EXTERNAL_ONDISK : Datum -> bool;
  PG_DETOAST_DATUM : Datum -> Datum;
  get_rel_namespace : Oid -> Oid;
  get_namespace_name : Oid -> string;
  quote_qualified_identifier : string -> string -> string;
  offsetof_tuple : Z
}.

(** ** Catalog and tuple data *)

Record FormData_pg_attribute : Type := {
  attname : string;
  atttypid : Oid;
  attnum : Z;
  attisdropped : bool
}.

(** [tupdesc->attrs], with [tupdesc->natts] its length. *)
Definition TupleDesc := list FormData_pg_attribute.

Record RelationData : Type := {
  rd_id : Oid;
  relname : string;
  rd_att : TupleDesc
}.

Inductive ReorderBufferChangeType : Type :=
| REORDER_BUFFER_CHANGE_INSERT
| REORDER_BUFFER_CHANGE_UPDATE
| REORDER_BUFFER_CHANGE_DELETE
| REORDER_BUFFER_CHANGE_OTHER.

Definition is_delete (a : ReorderBufferChangeType) : bool :=
  match a with
  | REORDER_BUFFER_CHANGE_DELETE => true
  | _ => false
  end.

(** [change->data.tp]: the two tuple buffers, by address. *)
Record ReorderBufferChange : Type := {
  action : ReorderBufferChangeType;
  oldtuple : Pointer;
  newtuple : Pointer
}.

Record ReorderBufferTXN : Type := { xid : Z }.

Record DecodingJsonData : Type := { xact_wrote_changes : bool }.

(** [out] is [ctx->out]; [written] is what the transport has received. *)
Record LogicalDecodingContext : Type := {
  out : StringInfo;
  written : list string;
  output_plugin_private : DecodingJsonData
}.

Definition set_out (ctx : LogicalDecodingContext) (s : StringInfo)
  : LogicalDecodingContext :=
  {| out := s; written := written ctx;
     output_plugin_private := output_plugin_private ctx |}.

Definition set_private (ctx : LogicalDecodingContext) (d : DecodingJsonData)
  : LogicalDecodingContext :=
  {| out := out ctx; written := written ctx; output_plugin_private := d |}.

(** [OutputPluginPrepareWrite] starts a message in an empty [ctx->out];
    [OutputPluginWrite] hands [ctx->out] to the transport. *)
Definition OutputPluginPrepareWrite (ctx : LogicalDecodingContext) (last_write : bool)
  : LogicalDecodingContext :=
  set_out ctx EmptyString.

Definition OutputPluginWrite (ctx : LogicalDecodingContext) (last_write : bool)
  : LogicalDecodingContext :=
  {| out := out ctx; written := written ctx ++ [out ctx];
     output_plugin_private := output_plugin_private ctx |}.

(** ** Transaction framing *)

Definition pg_output_begin (ctx : LogicalDecodingContext) (data : DecodingJsonData)
  (txn : ReorderBufferTXN) (last_write : bool) : LogicalDecodingContext :=
  let ctx := OutputPluginPrepareWrite ctx last_write in
  let ctx :=
    set_out ctx
      (appendStringInfo (out ctx)
         (cstr "{`type`:`transaction.begin`,`xid`:`%u`}") [ArgU (xid txn)]) in
  OutputPluginWrite ctx last_write.

Definition pg_decode_begin_txn (ctx : LogicalDecodingContext) (txn : ReorderBufferTXN)
  : LogicalDecodingContext :=
  let data := {| xact_wrote_changes := false |} in
  let ctx := set_private ctx data in
  pg_output_begin ctx data txn true.

Definition pg_decode_commit_txn (ctx : LogicalDecodingContext) (txn : ReorderBufferTXN)
  : LogicalDecodingContext :=
  let ctx := OutputPluginPrepareWrite ctx true in
  let ctx :=
    set_out ctx
      (appendStringInfo (out ctx)
         (cstr "{`type`:`transaction.commit`,`xid`:`%u`}") [ArgU (xid txn)]) in
  OutputPluginWrite ctx true.

(** ** Row encoding *)

Section Encoder.

Context {host : Host}.

(** A heap tuple: one slot per attribute, [None] for SQL NULL. *)
Definition HeapTupleData := list (option Datum).

(** The tuples in memory, by the address of their [HeapTupleData]. *)
Definition Memory := Pointer -> option HeapTupleData.

(** [fastgetattr(tuple, attnum, tupdesc, &isnull)] gives the datum and the
    null flag; it faults when [tuple] does not point to a tuple.  An
    attribute the tuple does not store reads as NULL, the rule of the
    host's heap_getattr; the macro itself makes no such test. *)
Definition fastgetattr (mem : Memory) (tuple : Pointer) (attnum : Z)
  : option (Datum * bool) :=
  t <- mem tuple ;;
  match nth_error t (Z.to_nat (attnum - 1)) with
  | Some (Some d) => Some (d, false)
  | _ => Some (NullDatum, true)
  end.

(** One iteration of the loop of [tuple_to_stringinfo]. *)
Definition tuple_to_stringinfo_body (mem : Memory) (tuple : Pointer)
  (skip_nulls : bool) (s : StringInfo) (natt : Z) (attr : FormData_pg_attribute)
  : option StringInfo :=
  if attisdropped attr then Some s
  else if attnum attr <? 0 then Some s
  else
    let typid := atttypid attr in
    r <- fastgetattr mem tuple (natt + 1) ;;
    let '(origval, isnull) := r in
    if isnull && skip_nulls then Some s
    else
      let s := if natt >? 0 then appendStringInfoChar s "," else s in
      let s := appendStringInfo s (cstr "`%s`:") [ArgS (attname attr)] in
      let '(typoutput, typisvarlena) := getTypeOutputInfo typid in
      if isnull then
        Some (appendStringInfoString s "null")
      else if typisvarlena && VARATT_IS_EXTERNAL_ONDISK origval then
        Some (appendStringInfoString s (cstr "`???unchanged-toast-datum???`"))
      else if negb typisvarlena then
        Some (print_literal s typid (OidOutputFunctionCall typoutput origval))
      else
        let val := PG_DETOAST_DATUM origval in
        Some (print_literal s typid (OidOutputFunctionCall typoutput val)).

(** The loop from attribute index [natt] over the remaining attributes. *)
Fixpoint tuple_to_stringinfo_from (mem : Memory) (tuple : Pointer)
  (skip_nulls : bool) (natt : Z) (attrs : list FormData_pg_attribute)
  (s : StringInfo) : option StringInfo :=
  match attrs with
  | [] => Some s
  | attr :: attrs' =>
      s' <- tuple_to_stringinfo_body mem tuple skip_nulls s natt attr ;;
      tuple_to_stringinfo_from mem tuple skip_nulls (natt + 1) attrs' s'
  end.

Definition tuple_to_stringinfo (mem : Memory) (s : StringInfo) (tupdesc : TupleDesc)
  (tuple : Pointer) (skip_nulls : bool) : option StringInfo :=
  tuple_to_stringinfo_from mem tuple skip_nulls 0 tupdesc s.

(** [&buf->tuple]: the address of the member [tuple] of the buffer at
    [buf]. *)
Definition tuple_of_buf (buf : Pointer) : Pointer := buf + offsetof_tuple.

(** [pg_decode_change].  The memory-context switches leave the text alone
    and are left out; [Assert(false)] of the default case aborts. *)
Definition pg_decode_change (mem : Memory) (ctx : LogicalDecodingContext)
  (txn : ReorderBufferTXN) (relation : RelationData) (change : ReorderBufferChange)
  : option LogicalDecodingContext :=
  let ctx := set_private ctx {| xact_wrote_changes := true |} in
  let tupdesc := rd_att relation in
  let ctx := OutputPluginPrepareWrite ctx true in
  let s := appendStringInfoString (out ctx) (cstr "{`type`:`table`,`name`:`") in
  let s :=
    appendStringInfoString s
      (quote_qualified_identifier
         (get_namespace_name (get_rel_namespace (rd_id relation)))
         (relname relation)) in
  let s := appendStringInfoString s (cstr "`,`change`:`") in
  r <- match action change with
       | REORDER_BUFFER_CHANGE_INSERT =>
           Some (appendStringInfoString s "INSERT", tuple_of_buf (newtuple change))
       | REORDER_BUFFER_CHANGE_UPDATE =>
           Some (appendStringInfoString s "UPDATE", tuple_of_buf (newtuple change))
       | REORDER_BUFFER_CHANGE_DELETE =>
           Some (appendStringInfoString s "DELETE", tuple_of_buf (oldtuple change))
       | REORDER_BUFFER_CHANGE_OTHER => None
       end ;;
  let '(s, heaptuple) := r in
  let s := appendStringInfoChar s dquote in
  s <- (if negb (heaptuple =? NULL) then
          let s := appendStringInfoString s (cstr ",`data`:{") in
          s <- tuple_to_stringinfo mem s tupdesc heaptuple (is_delete (action change)) ;;
          Some (appendStringInfoChar s "}")
        else Some s) ;;
  let s := appendStringInfoChar s "}" in
  Some (OutputPluginWrite (set_out ctx s) true).

End Encoder.

(** ** A host instance *)

Module PgHost.

(** Datums of the instance: a value held in the event with its output text,
    a compressed varlena that must be detoasted before its output function
    runs, and a pointer to an on-disk TOAST value that the event does not
    carry. *)
Inductive datum : Type :=
| Plain (txt : string)
| Compressed (txt : string)
| OnDisk
| Zero.

Definition output (d : datum) : string :=
  match d with
  | Plain txt => txt
  | _ => EmptyString
  end.

Definition detoast (d : datum) : datum :=
  match d with
  | Compressed txt => Plain txt
  | _ => d
  end.

Definition external_ondisk (d : datum) : bool :=
  match d with
  | OnDisk => true
  | _ => false
  end.

Definition TEXTOID : Oid := 25.
Definition JSONOID : Oid := 114.
Definition VARCHAROID : Oid := 1043.

(** [typlen = -1] in pg_type. *)
Definition typisvarlena (typid : Oid) : bool :=
  (typid =? TEXTOID) || (typid =? JSONOID) || (typid =? VARCHAROID)
  || (typid =? BITOID) || (typid =? VARBITOID) || (typid =? NUMERICOID).

Definition PG_PUBLIC_NAMESPACE : Oid := 2200.

Definition namespace_name (nsp : Oid) : string :=
  if nsp =? PG_PUBLIC_NAMESPACE then "public" else "pg_catalog".

(** Relations 16384 and above are the user's and live in public. *)
Definition rel_namespace (relid : Oid) : Oid :=
  if 16384 <=? relid then PG_PUBLIC_NAMESPACE else 11.

Definition is_lower (ch : ascii) : bool :=
  let n := Z.of_nat (nat_of_ascii ch) in (97 <=? n) && (n <=? 122).

Definition is_digit (ch : ascii) : bool :=
  let n := Z.of_nat (nat_of_ascii ch) in (48 <=? n) && (n <=? 57).

Definition ident_char (ch : ascii) : bool :=
  is_lower ch || is_digit ch || Ascii.eqb ch "_".

Fixpoint all_ident_chars (ident : string) : bool :=
  match ident with
  | EmptyString => true
  | String ch rest => ident_char ch && all_ident_chars rest
  end.

Fixpoint double_dquotes (ident : string) : string :=
  match ident with
  | EmptyString => EmptyString
  | String ch rest =>
      if Ascii.eqb ch dquote then String ch (String ch (double_dquotes rest))
      else String ch (double_dquotes rest)
  end.

(** Some of the reserved words of the host's grammar. *)
Definition reserved_words : list string :=
  ["select"; "from"; "where"; "table"; "order"; "group"; "user"; "end"].

Definition is_reserved (ident : string) : bool :=
  existsb (String.eqb ident) reserved_words.

(** Modelled from the spec: [quote_identifier] and
    [quote_qualified_identifier] belong to the host (ruleutils.c) and are
    not in this repository.  An identifier is left as it is when it starts
    with a lowercase letter or an underscore, holds only lowercase letters,
    digits and underscores, and is no reserved word; otherwise it is wrapped
    in double quotes, its own double quotes doubled.  The qualified name is
    the two quoted identifiers joined by a dot. *)
Definition quote_identifier (ident : string) : string :=
  let safe :=
    match ident with
    | String ch _ => is_lower ch || Ascii.eqb ch "_"
    | EmptyString => false
    end in
  let safe := safe && all_ident_chars ident in
  let safe := safe && negb (is_reserved ident) in
  if safe then ident
  else String dquote (double_dquotes ident ++ String dquote EmptyString).

Definition quote_qualified (qualifier ident : string) : string :=
  quote_identifier qualifier ++ "." ++ quote_identifier ident.

(** The instance: [tuple] follows the list node ([slist_node], one pointer)
    at the head of [ReorderBufferTupleBuf], so its offset is 8 on an LP64
    machine. *)
#[global] Instance pg_host : Host := {|
  Datum := datum;
  NullDatum := Zero;
  getTypeOutputInfo := fun typid => (typid, typisvarlena typid);
  OidOutputFunctionCall := fun _ d => output d;
  VARATT_IS_EXTERNAL_ONDISK := external_ondisk;
  PG_DETOAST_DATUM := detoast;
  get_rel_namespace := rel_namespace;
  get_namespace_name := namespace_name;
  quote_qualified_identifier := quote_qualified;
  offsetof_tuple := 8
|}.

(** Memory holding one tuple at [addr]. *)
Definition one_tuple (addr : Pointer) (t : list (option datum)) : Memory :=
  fun p => if p =? addr then Some t else None.

(** Memory holding no tuple. *)
Definition no_tuple : Memory := fun _ => None.

Definition ctx0 : LogicalDecodingContext :=
  {| out := EmptyString; written := [];
     output_plugin_private := {| xact_wrote_changes := false |} |}.

Definition column (name : string) (typid : Oid) (num : Z) : FormData_pg_attribute :=
  {| attname := name; atttypid := typid; attnum := num; attisdropped := false |}.

Definition dropped_column (num : Z) : FormData_pg_attribute :=
  {| attname := "........pg.dropped.1........"; atttypid := 0; attnum := num;
     attisdropped := true |}.

(** public.orders (id int4, note text) *)
Definition orders : RelationData :=
  {| rd_id := 16384; relname := "orders";
     rd_att := [column "id" INT4OID 1; column "note" TEXTOID 2] |}.

(** The tuple buffer of the examples is at 4096, its tuple at 4104. *)
Definition buf : Pointer := 4096.

Definition messages (r : option LogicalDecodingContext) : option (list string) :=
  match r with
  | Some ctx => Some (written ctx)
  | None => None
  end.

Definition txn0 : ReorderBufferTXN := {| xid := 731 |}.

(** public.orders (note text, id int4): the key is the second column. *)
Definition orders_note_first : RelationData :=
  {| rd_id := 16385; relname := "orders";
     rd_att := [column "note" TEXTOID 1; column "id" INT4OID 2] |}.

(** public.orders after its first column was dropped. *)
Definition orders_dropped_first : RelationData :=
  {| rd_id := 16386; relname := "orders";
     rd_att := [dropped_column 1; column "id" INT4OID 2] |}.

(** public.items (id int4, price numeric). *)
Definition items : RelationData :=
  {| rd_id := 16389; relname := "items";
     rd_att := [column "id" INT4OID 1; column "price" NUMERICOID 2] |}.

(** public.t, a table without columns. *)
Definition no_columns : RelationData :=
  {| rd_id := 16387; relname := "t"; rd_att := [] |}.


Definition insert_of (b : Pointer) : ReorderBufferChange :=
  {| action := REORDER_BUFFER_CHANGE_INSERT; oldtuple := NULL; newtuple := b |}.

Definition update_of (b : Pointer) : ReorderBufferChange :=
  {| action := REORDER_BUFFER_CHANGE_UPDATE; oldtuple := NULL; newtuple := b |}.

Definition delete_of (b : Pointer) : ReorderBufferChange :=
  {| action := REORDER_BUFFER_CHANGE_DELETE; oldtuple := b; newtuple := NULL |}.

End PgHost.

(** ** Vocabulary of the statements *)

(** The number a decimal numeral denotes. *)
Definition decimal_value (s : string) : option Z :=
  match NilZero.uint_of_string s with
  | Some d => Some (Z.of_N (N.of_uint d))
  | None => None
  end.

(** The decimal numeral of a natural number. *)
Definition decimal_string (t : Z) : string :=
  NilZero.string_of_uint (N.to_uint (Z.to_N t)).

(** The type identifiers of the first case of the switch. *)
Definition numeric_oids : list Oid :=
  [INT2OID; INT4OID; INT8OID; OIDOID; FLOAT4OID; FLOAT8OID; NUMERICOID].

(** The comma the loop puts before the field of attribute [natt]. *)
Definition separator (natt : Z) : string :=
  if natt >? 0 then "," else EmptyString.

(** The member name of a column, between double quotes, and the colon. *)
Definition field_name (attr : FormData_pg_attribute) : string :=
  String dquote (attname attr ++ String dquote ":").

Definition change_name (a : ReorderBufferChangeType) : string :=
  match a with
  | REORDER_BUFFER_CHANGE_INSERT => "INSERT"
  | REORDER_BUFFER_CHANGE_UPDATE => "UPDATE"
  | REORDER_BUFFER_CHANGE_DELETE => "DELETE"
  | REORDER_BUFFER_CHANGE_OTHER => EmptyString
  end.

(** The tuple buffer a change is rendered from. *)
Definition image_buf (change : ReorderBufferChange) : Pointer :=
  match action change with
  | REORDER_BUFFER_CHANGE_DELETE => oldtuple change
  | _ => newtuple change
  end.

(** The context after a row change has written [msg]. *)
Definition delivered (ctx : LogicalDecodingContext) (msg : string)
  : LogicalDecodingContext :=
  {| out := msg; written := written ctx ++ [msg];
     output_plugin_private := {| xact_wrote_changes := true |} |}.

(** The opening of a row-change object, up to the quote that closes the
    change kind. *)
Definition change_head {host : Host} (relation : RelationData)
  (change : ReorderBufferChange) : string :=
  cstr "{`type`:`table`,`name`:`"
  ++ quote_qualified_identifier
       (get_namespace_name (get_rel_namespace (rd_id relation))) (relname relation)
  ++ cstr "`,`change`:`" ++ change_name (action change) ++ String dquote EmptyString.

(** The text one iteration appends for a column it renders. *)
Definition column_literal {host : Host} (attr : FormData_pg_attribute) (origval : Datum)
  (isnull : bool) : string :=
  let typid := atttypid attr in
  let '(typoutput, typisvarlena) := getTypeOutputInfo typid in
  if isnull then "null"
  else if typisvarlena && VARATT_IS_EXTERNAL_ONDISK origval then
    cstr "`???unchanged-toast-datum???`"
  else
    print_literal EmptyString typid
      (OidOutputFunctionCall typoutput
         (if typisvarlena then PG_DETOAST_DATUM origval else origval)).






(** A JSON reader positioned after the opening quote of a string: the
    characters up to the first double quote that no backslash escapes, and
    the text after that quote. *)
Fixpoint json_string_body (s : string) : option (string * string) :=
  match s with
  | EmptyString => None
  | String c rest =>
      if Ascii.eqb c dquote then Some (EmptyString, rest)
      else if Ascii.eqb c "\" then
        match rest with
        | String e rest' =>
            match json_string_body rest' with
            | Some (body, tl) => Some (String c (String e body), tl)
            | None => None
            end
        | EmptyString => None
        end
      else
        match json_string_body rest with
        | Some (body, tl) => Some (String c body, tl)
        | None => None
        end
  end.

(** ** Readers of the emitted text *)

(** [undouble q str] reads [str] with every pair of [q] as one [q]: the
    SQL reading of a doubled quote. *)
Fixpoint undouble (q : ascii) (str : string) : string :=
  match str with
  | EmptyString => EmptyString
  | String ch rest =>
      if Ascii.eqb ch q then
        match rest with
        | String ch' rest' =>
            if Ascii.eqb ch' q then String ch (undouble q rest')
            else String ch (undouble q rest)
        | EmptyString => String ch EmptyString
        end
      else String ch (undouble q rest)
  end.

(** The string without its last character, and that character. *)
Fixpoint split_last (str : string) : option (string * ascii) :=
  match str with
  | EmptyString => None
  | String ch rest =>
      match split_last rest with
      | None => Some (EmptyString, ch)
      | Some (init, last) => Some (String ch init, last)
      end
  end.

(** The text a generic-text literal stands for: the literal without the
    double quotes around it, its doubled single quotes read as one. *)
Definition text_of_literal (lit : string) : option string :=
  match lit with
  | String ch body =>
      if Ascii.eqb ch dquote then
        match split_last body with
        | Some (inner, last) =>
            if Ascii.eqb last dquote then Some (undouble squote inner) else None
        | None => None
        end
      else None
  | EmptyString => None
  end.

(** [strip_prefix p s] is [s] without its prefix [p]. *)
Fixpoint strip_prefix (p s : string) : option string :=
  match p with
  | EmptyString => Some s
  | String c p' =>
      match s with
      | String d s' => if Ascii.eqb c d then strip_prefix p' s' else None
      | EmptyString => None
      end
  end.

(** The transaction identifier a reader finds in a transaction object
    that opens with [head]: the JSON string after [head], which must be
    followed by the closing brace alone, as a decimal numeral. *)
Definition xid_of_message (head msg : string) : option Z :=
  rest <- strip_prefix head msg ;;
  r <- json_string_body rest ;;
  let '(body, tl) := r in
  if String.eqb tl "}" then decimal_value body else None.

(** A message opens as an object with a type member and ends with a
    closing brace. *)
Definition well_framed (msg : string) : bool :=
  match strip_prefix (cstr "{`type`:`") msg with
  | Some _ =>
      match split_last msg with
      | Some (_, last) => Ascii.eqb last "}"
      | None => false
      end
  | None => false
  end.

(** A column of the row: not dropped, no system attribute. *)
Definition live (attr : FormData_pg_attribute) : bool :=
  negb (attisdropped attr) && negb (attnum attr <? 0).

(** One call of an emitting callback. *)
Inductive plugin_step {host : Host} : LogicalDecodingContext -> LogicalDecodingContext -> Prop :=
| step_begin ctx txn :
    plugin_step ctx (pg_decode_begin_txn ctx txn)
| step_commit ctx txn :
    plugin_step ctx (pg_decode_commit_txn ctx txn)
| step_change mem ctx txn relation change ctx' :
    pg_decode_change mem ctx txn relation change = Some ctx' ->
    plugin_step ctx ctx'.

(** [n] calls in a row. *)
Inductive plugin_steps {host : Host} : nat -> LogicalDecodingContext -> LogicalDecodingContext -> Prop :=
| steps_none ctx : plugin_steps O ctx ctx
| steps_more n ctx ctx' ctx'' :
    plugin_steps n ctx ctx' -> plugin_step ctx' ctx'' ->
    plugin_steps (S n) ctx ctx''.


(** * Properties *)

(** ** Worked examples *)

Example print_literal_int : print_literal "x:" INT4OID "42" = "x:42".
Proof. reflexivity. Qed.

Example print_literal_bit :
  print_literal EmptyString VARBITOID "1011" = cstr "`B'1011'`".
Proof. reflexivity. Qed.

Example print_literal_text :
  print_literal EmptyString 25 "it's" = cstr "`it''s`".
Proof. reflexivity. Qed.

Example fmt_u_max : fmt_u 4294967295 = "4294967295".
Proof. reflexivity. Qed.

Example scenario_insert :
  PgHost.messages
    (pg_decode_change (PgHost.one_tuple (PgHost.buf + 8) [Some (PgHost.Plain "1"); None]) PgHost.ctx0 PgHost.txn0 PgHost.orders
       {| action := REORDER_BUFFER_CHANGE_INSERT; oldtuple := NULL; newtuple := PgHost.buf |})
  = Some [cstr "{`type`:`table`,`name`:`public.orders`,`change`:`INSERT`,`data`:{`id`:1,`note`:null}}"].
Proof. reflexivity. Qed.

Example scenario_delete :
  PgHost.messages
    (pg_decode_change (PgHost.one_tuple (PgHost.buf + 8) [Some (PgHost.Plain "1"); None]) PgHost.ctx0 PgHost.txn0 PgHost.orders
       {| action := REORDER_BUFFER_CHANGE_DELETE; oldtuple := PgHost.buf; newtuple := NULL |})
  = Some [cstr "{`type`:`table`,`name`:`public.orders`,`change`:`DELETE`,`data`:{`id`:1}}"].
Proof. reflexivity. Qed.

Example scenario_toast :
  PgHost.messages
    (pg_decode_change (PgHost.one_tuple (PgHost.buf + 8) [Some (PgHost.Plain "1"); Some PgHost.OnDisk]) PgHost.ctx0 PgHost.txn0 PgHost.orders
       {| action := REORDER_BUFFER_CHANGE_UPDATE; oldtuple := NULL; newtuple := PgHost.buf |})
  = Some [cstr "{`type`:`table`,`name`:`public.orders`,`change`:`UPDATE`,`data`:{`id`:1,`note`:`???unchanged-toast-datum???`}}"].
Proof. reflexivity. Qed.

Example scenario_update_text :
  PgHost.messages
    (pg_decode_change
       (PgHost.one_tuple (PgHost.buf + 8)
          [Some (PgHost.Plain "1"); Some (PgHost.Plain (cstr "He said `hi`"))])
       PgHost.ctx0 PgHost.txn0 PgHost.orders (PgHost.update_of PgHost.buf))
  = Some [cstr "{`type`:`table`,`name`:`public.orders`,`change`:`UPDATE`,`data`:{`id`:1,`note`:`He said `hi``}}"].
Proof. reflexivity. Qed.

Example quote_qualified_plain : PgHost.quote_qualified "public" "orders" = "public.orders".
Proof. reflexivity. Qed.

Example quote_qualified_quoted :
  PgHost.quote_qualified "Public" "Order Table" = cstr "`Public`.`Order Table`".
Proof. reflexivity. Qed.

(** ** Strings *)

Lemma append_assoc (a b c : string) : (a ++ b) ++ c = a ++ (b ++ c).
Proof. induction a as [|ch a IH]; simpl; [reflexivity | now rewrite IH]. Qed.

Lemma append_nil_r (a : string) : a ++ EmptyString = a.
Proof. induction a as [|ch a IH]; simpl; [reflexivity | now rewrite IH]. Qed.

Lemma append_inv_head (a b c : string) : a ++ b = a ++ c -> b = c.
Proof.
  induction a as [|ch a IH]; simpl; intros H; [exact H|].
  injection H as H. now apply IH.
Qed.

Lemma count_char_append (c : ascii) (a b : string) :
  count_char c (a ++ b) = (count_char c a + count_char c b)%nat.
Proof.
  induction a as [|ch a IH]; simpl; [reflexivity|].
  rewrite IH. now destruct (Ascii.eqb ch c).
Qed.

Ltac unfold_append :=
  unfold appendStringInfo, appendStringInfoString, appendStringInfoChar in *.

(** ** The default case of print_literal *)

Lemma print_literal_loop_spec (valptr : string) (s : StringInfo) :
  print_literal_loop s valptr = s ++ double_char squote valptr.
Proof.
  revert s. induction valptr as [|ch rest IH]; intros s; simpl.
  - now rewrite append_nil_r.
  - rewrite IH. unfold SQL_STR_DOUBLE, appendStringInfoChar.
    rewrite andb_false_r, orb_false_r.
    destruct (Ascii.eqb ch squote); now rewrite !append_assoc.
Qed.

Lemma default_case_cases (typid : Oid) :
  default_case typid = true ->
  is_numeric_case typid = false /\ is_bit_case typid = false
  /\ (typid =? BOOLOID) = false.
Proof.
  unfold default_case. intros H.
  destruct (is_numeric_case typid); [discriminate|].
  destruct (is_bit_case typid); [discriminate|].
  destruct (typid =? BOOLOID); [discriminate|]. now repeat split.
Qed.

Lemma print_literal_default (s : StringInfo) (typid : Oid) (outputstr : string) :
  default_case typid = true ->
  print_literal s typid outputstr
  = s ++ String dquote (double_char squote outputstr ++ String dquote EmptyString).
Proof.
  intros H. apply default_case_cases in H as (Hn & Hb & Ho).
  unfold print_literal. rewrite Hn, Hb, Ho. cbv zeta.
  rewrite print_literal_loop_spec. unfold appendStringInfoChar.
  now rewrite !append_assoc.
Qed.

Lemma double_char_other (q c : ascii) (str : string) :
  Ascii.eqb c q = false ->
  count_char c (double_char q str) = count_char c str.
Proof.
  intros Hc. induction str as [|ch rest IH]; simpl; [reflexivity|].
  destruct (Ascii.eqb ch q) eqn:E; simpl; rewrite IH.
  - apply Ascii.eqb_eq in E. subst ch.
    rewrite Ascii.eqb_sym in Hc. rewrite (Ascii.eqb_sym q c), Ascii.eqb_sym.
    rewrite Hc. reflexivity.
  - reflexivity.
Qed.

Lemma double_char_same (q : ascii) (str : string) :
  count_char q (double_char q str) = (2 * count_char q str)%nat.
Proof.
  induction str as [|ch rest IH]; simpl; [reflexivity|].
  destruct (Ascii.eqb ch q) eqn:E; simpl; rewrite ?E, IH; lia.
Qed.

(** C1, as the code has it.  Under the default case the output is the input
    wrapped in double quotes, every single quote of the input doubled and
    every other character, the double quote, the backslash and the control
    characters among them, passed through once; the text He said `hi` (a backquote standing for a
    double quote) comes out as `He said `hi``. *)
Theorem C1_default_doubles_single_quotes :
  forall (s : StringInfo) (typid : Oid) (outputstr : string),
    default_case typid = true ->
    print_literal s typid outputstr
    = s ++ String dquote (double_char squote outputstr ++ String dquote EmptyString)
    /\ double_char squote (cstr "He said `hi`") = cstr "He said `hi`"
    /\ (forall ch rest,
          double_char squote (String ch rest)
          = if Ascii.eqb ch squote then String ch (String ch (double_char squote rest))
            else String ch (double_char squote rest)).
Proof.
  intros s typid outputstr H. split; [now apply print_literal_default|].
  split; reflexivity.
Qed.

Lemma C1_default_doubles_single_quotes_witness :
  print_literal EmptyString PgHost.TEXTOID (cstr "He said `hi`")
  = cstr "`He said `hi``".
Proof.
  destruct (C1_default_doubles_single_quotes EmptyString PgHost.TEXTOID
              (cstr "He said `hi`") eq_refl) as (H & _).
  rewrite H. reflexivity.
Defined.

(** C1 as the specification words it fails: the double quotes around hi
    in the text He said `hi` are not doubled. *)
Lemma C1_counterexample :
  print_literal EmptyString PgHost.TEXTOID (cstr "He said `hi`")
  <> String dquote (double_char dquote (cstr "He said `hi`") ++ String dquote EmptyString)
  /\ print_literal EmptyString PgHost.TEXTOID (cstr "He said `hi`")
     <> cstr "`He said ``hi```".
Proof. split; vm_compute; discriminate. Qed.

(** C4.  Under the boolean case the text t gives true, the text f gives
    false, and every text gives true when it is t and false otherwise. *)
Theorem C4_boolean_literal :
  forall (s : StringInfo) (outputstr : string),
    print_literal s BOOLOID "t" = s ++ "true"
    /\ print_literal s BOOLOID "f" = s ++ "false"
    /\ print_literal s BOOLOID outputstr
       = s ++ (if String.eqb outputstr "t" then "true" else "false").
Proof.
  intros s outputstr. split; [reflexivity|]. split; [reflexivity|].
  unfold print_literal, strcmp. simpl is_numeric_case. cbv iota.
  simpl is_bit_case. cbv iota. simpl (BOOLOID =? BOOLOID). cbv iota.
  destruct (String.eqb_spec outputstr "t") as [->|Hne]; [reflexivity|].
  destruct (String.compare outputstr "t") eqn:E; try reflexivity.
  apply String.compare_eq_iff in E. contradiction.
Qed.

(** C9.  Under the default case every single quote of the input is emitted
    twice and every double quote once: the output holds twice the single
    quotes of the input, and the double quotes of the input plus the two
    that surround it. *)
Theorem C9_single_quotes_twice_double_quotes_once :
  forall (typid : Oid) (outputstr : string),
    default_case typid = true ->
    count_char squote (print_literal EmptyString typid outputstr)
    = (2 * count_char squote outputstr)%nat
    /\ count_char dquote (print_literal EmptyString typid outputstr)
       = (count_char dquote outputstr + 2)%nat
    /\ (forall s rest,
          print_literal_loop s (String squote rest)
          = print_literal_loop (s ++ String squote (String squote EmptyString)) rest)
    /\ (forall s rest,
          print_literal_loop s (String dquote rest)
          = print_literal_loop (s ++ String dquote EmptyString) rest).
Proof.
  intros typid outputstr H. rewrite (print_literal_default _ _ _ H). simpl.
  rewrite !count_char_append. simpl.
  rewrite double_char_same, (double_char_other squote dquote) by reflexivity.
  repeat split; try lia.
  intros s rest. simpl. unfold appendStringInfoChar. now rewrite append_assoc.
Qed.

Lemma C9_single_quotes_twice_double_quotes_once_witness :
  count_char squote (print_literal EmptyString PgHost.TEXTOID (cstr "it's `so`")) = 2%nat
  /\ count_char dquote (print_literal EmptyString PgHost.TEXTOID (cstr "it's `so`")) = 4%nat.
Proof.
  destruct (C9_single_quotes_twice_double_quotes_once PgHost.TEXTOID
              (cstr "it's `so`") eq_refl) as (H1 & H2 & _).
  split; [exact H1 | exact H2].
Defined.

(** ** Transaction framing *)

Lemma fmt_u_in_range (t : Z) :
  0 <= t < 2 ^ 32 ->
  fmt_u t = decimal_string t.
Proof. intros H. unfold fmt_u, decimal_string. now rewrite Z.mod_small. Qed.

Lemma N_to_uint_nonnil (n : N) : N.to_uint n <> Decimal.Nil.
Proof.
  destruct n as [|p]; simpl; [discriminate|].
  apply DecimalPos.Unsigned.to_uint_nonnil.
Qed.

Lemma decimal_value_string (t : Z) :
  0 <= t -> decimal_value (decimal_string t) = Some t.
Proof.
  intros H. unfold decimal_value, decimal_string.
  rewrite NilZero.usu by apply N_to_uint_nonnil.
  rewrite DecimalN.Unsigned.of_to. f_equal. apply Z2N.id. lia.
Qed.

(** C3.  For a transaction identifier [t] of 32 bits, unsigned, the begin
    callback writes exactly the object
    {`type`:`transaction.begin`,`xid`:`<t>`} and the commit callback exactly
    {`type`:`transaction.commit`,`xid`:`<t>`} (backquotes standing for
    double quotes), whatever the context; <t> is the same decimal numeral in
    both, and it denotes [t]. *)
Theorem C3_transaction_markers :
  forall (ctx : LogicalDecodingContext) (t : Z),
    0 <= t < 2 ^ 32 ->
    written (pg_decode_begin_txn ctx {| xid := t |})
    = (written ctx
       ++ [(cstr "{`type`:`transaction.begin`,`xid`:`" ++ decimal_string t ++ cstr "`}")%string])%list
    /\ written (pg_decode_commit_txn ctx {| xid := t |})
       = (written ctx
          ++ [(cstr "{`type`:`transaction.commit`,`xid`:`" ++ decimal_string t ++ cstr "`}")%string])%list
    /\ decimal_value (decimal_string t) = Some t.
Proof.
  intros ctx t Ht.
  rewrite <- (fmt_u_in_range t Ht).
  split; [reflexivity|]. split; [reflexivity|].
  rewrite (fmt_u_in_range t Ht). apply decimal_value_string. lia.
Qed.

Lemma C3_transaction_markers_witness :
  written (pg_decode_begin_txn PgHost.ctx0 {| xid := 731 |})
  = [cstr "{`type`:`transaction.begin`,`xid`:`731`}"]
  /\ written (pg_decode_commit_txn PgHost.ctx0 {| xid := 731 |})
     = [cstr "{`type`:`transaction.commit`,`xid`:`731`}"].
Proof.
  assert (H : 0 <= 731 < 2 ^ 32) by (split; [discriminate | reflexivity]).
  destruct (C3_transaction_markers PgHost.ctx0 731 H) as (Hb & Hc & _).
  split; [exact Hb | exact Hc].
Defined.

(** ** The loop of tuple_to_stringinfo *)

Section RowProperties.

Context {host : Host}.

Lemma print_literal_prefix (s : StringInfo) (typid : Oid) (outputstr : string) :
  print_literal s typid outputstr = s ++ print_literal EmptyString typid outputstr.
Proof.
  unfold print_literal.
  destruct (is_numeric_case typid); [reflexivity|].
  destruct (is_bit_case typid); [reflexivity|].
  destruct (typid =? BOOLOID).
  - destruct (strcmp outputstr "t" =? 0); reflexivity.
  - cbv zeta. rewrite !print_literal_loop_spec. unfold_append.
    simpl. now rewrite !append_assoc.
Qed.

Lemma body_dropped mem tuple skip_nulls s natt attr :
  attisdropped attr = true ->
  tuple_to_stringinfo_body mem tuple skip_nulls s natt attr = Some s.
Proof. intros H. unfold tuple_to_stringinfo_body. now rewrite H. Qed.

Lemma body_system mem tuple skip_nulls s natt attr :
  (attnum attr <? 0) = true ->
  tuple_to_stringinfo_body mem tuple skip_nulls s natt attr = Some s.
Proof.
  intros H. unfold tuple_to_stringinfo_body. rewrite H.
  now destruct (attisdropped attr).
Qed.

Lemma body_skipped_null mem tuple s natt attr origval :
  fastgetattr mem tuple (natt + 1) = Some (origval, true) ->
  tuple_to_stringinfo_body mem tuple true s natt attr = Some s.
Proof.
  intros H. unfold tuple_to_stringinfo_body. rewrite H. simpl.
  destruct (attisdropped attr); [reflexivity|].
  now destruct (attnum attr <? 0).
Qed.

Lemma body_rendered mem tuple skip_nulls s natt attr origval isnull :
  attisdropped attr = false ->
  (attnum attr <? 0) = false ->
  fastgetattr mem tuple (natt + 1) = Some (origval, isnull) ->
  isnull && skip_nulls = false ->
  tuple_to_stringinfo_body mem tuple skip_nulls s natt attr
  = Some (s ++ separator natt ++ field_name attr ++ column_literal attr origval isnull).
Proof.
  intros Hd Hn Hg Hs. unfold tuple_to_stringinfo_body, column_literal.
  rewrite Hd, Hn, Hg. simpl. rewrite Hs.
  destruct (getTypeOutputInfo (atttypid attr)) as [typoutput typisvarlena].
  unfold separator, field_name. unfold_append. simpl format.
  assert (E : forall lit : string,
    ((if natt >? 0 then s ++ "," else s) ++ String dquote (attname attr ++ String dquote ":")) ++ lit
    = s ++ (if natt >? 0 then "," else EmptyString)
        ++ String dquote (attname attr ++ String dquote ":") ++ lit).
  { intros lit. destruct (natt >? 0); now rewrite !append_assoc. }
  destruct isnull; [now rewrite E|].
  destruct (typisvarlena && VARATT_IS_EXTERNAL_ONDISK origval) eqn:Ex; [now rewrite E|].
  destruct typisvarlena; simpl negb; cbv iota;
    rewrite print_literal_prefix; now rewrite E.
Qed.

Lemma from_app mem tuple skip_nulls (pre post : list FormData_pg_attribute) :
  forall natt s,
    tuple_to_stringinfo_from mem tuple skip_nulls natt (pre ++ post)%list s
    = (s1 <- tuple_to_stringinfo_from mem tuple skip_nulls natt pre s ;;
       tuple_to_stringinfo_from mem tuple skip_nulls
         (natt + Z.of_nat (List.length pre)) post s1).
Proof.
  induction pre as [|a pre IH]; intros natt s.
  - simpl. now rewrite Z.add_0_r.
  - cbn [app tuple_to_stringinfo_from List.length].
    destruct (tuple_to_stringinfo_body mem tuple skip_nulls s natt a) as [s'|];
      [|reflexivity].
    cbn [bind]. rewrite IH.
    replace (natt + Z.of_nat (S (List.length pre)))
      with (natt + 1 + Z.of_nat (List.length pre))
      by (rewrite Nat2Z.inj_succ; lia).
    reflexivity.
Qed.

Lemma body_prefix mem tuple skip_nulls s natt attr :
  tuple_to_stringinfo_body mem tuple skip_nulls s natt attr
  = (f <- tuple_to_stringinfo_body mem tuple skip_nulls EmptyString natt attr ;;
     Some (s ++ f)).
Proof.
  destruct (attisdropped attr) eqn:Hd.
  { rewrite !body_dropped by exact Hd. simpl. now rewrite append_nil_r. }
  destruct (attnum attr <? 0) eqn:Hn.
  { rewrite !body_system by exact Hn. simpl. now rewrite append_nil_r. }
  destruct (fastgetattr mem tuple (natt + 1)) as [[origval isnull]|] eqn:Hg.
  - destruct (isnull && skip_nulls) eqn:Hs.
    + apply andb_true_iff in Hs as [-> ->].
      rewrite !(body_skipped_null _ _ _ _ _ _ Hg). simpl. now rewrite append_nil_r.
    + rewrite !(body_rendered _ _ _ _ _ _ _ _ Hd Hn Hg Hs). reflexivity.
  - unfold tuple_to_stringinfo_body. rewrite Hd, Hn, Hg. reflexivity.
Qed.

Lemma from_prefix mem tuple skip_nulls attrs :
  forall natt s,
    tuple_to_stringinfo_from mem tuple skip_nulls natt attrs s
    = (f <- tuple_to_stringinfo_from mem tuple skip_nulls natt attrs EmptyString ;;
       Some (s ++ f)).
Proof.
  induction attrs as [|a attrs IH]; intros natt s.
  - simpl. now rewrite append_nil_r.
  - cbn [tuple_to_stringinfo_from].
    rewrite (body_prefix _ _ _ s).
    destruct (tuple_to_stringinfo_body mem tuple skip_nulls EmptyString natt a)
      as [f|]; [|reflexivity].
    cbn [bind]. rewrite (IH _ (s ++ f)), (IH _ f).
    destruct (tuple_to_stringinfo_from mem tuple skip_nulls (natt + 1) attrs EmptyString)
      as [g|]; [|reflexivity].
    cbn [bind]. now rewrite append_assoc.
Qed.

(** ** The row-change callback *)

Lemma pg_decode_change_eq mem ctx txn relation change :
  action change <> REORDER_BUFFER_CHANGE_OTHER ->
  pg_decode_change mem ctx txn relation change
  = if tuple_of_buf (image_buf change) =? NULL then
      Some (delivered ctx (change_head relation change ++ "}"))
    else
      s <- tuple_to_stringinfo mem (change_head relation change ++ cstr ",`data`:{")
             (rd_att relation) (tuple_of_buf (image_buf change))
             (is_delete (action change)) ;;
      Some (delivered ctx (s ++ "}}")).
Proof.
  intros Ha. unfold pg_decode_change, image_buf, change_head.
  destruct (action change); try contradiction; cbn [bind is_delete change_name];
    (destruct (_ =? NULL); cbn [negb bind]; unfold_append;
     cbn [OutputPluginPrepareWrite set_out set_private out];
     repeat rewrite append_assoc; simpl;
     [ reflexivity
     | match goal with
       | |- context [tuple_to_stringinfo ?m ?s ?d ?t ?k] =>
           destruct (tuple_to_stringinfo m s d t k) as [r|]; [|reflexivity]
       end;
       cbn [bind]; unfold OutputPluginWrite, delivered;
       cbn [out written output_plugin_private set_out];
       now rewrite ?append_assoc ]).
Qed.

Lemma column_literal_null attr origval : column_literal attr origval true = "null".
Proof.
  unfold column_literal. now destruct (getTypeOutputInfo (atttypid attr)).
Qed.

(** C5.  In a row change whose image holds a NULL in a column of the row
    (not dropped, no system column), a DELETE adds nothing for that column:
    the data object is what the columns before and after it give.  An INSERT
    or UPDATE adds the member `column`:null for it, whatever the type of the
    column. *)
Theorem C5_null_columns :
  forall mem ctx txn relation change pre attr post origval,
    action change <> REORDER_BUFFER_CHANGE_OTHER ->
    rd_att relation = (pre ++ attr :: post)%list ->
    attisdropped attr = false ->
    (attnum attr <? 0) = false ->
    (tuple_of_buf (image_buf change) =? NULL) = false ->
    fastgetattr mem (tuple_of_buf (image_buf change)) (Z.of_nat (List.length pre) + 1)
    = Some (origval, true) ->
    pg_decode_change mem ctx txn relation change
    = (s1 <- tuple_to_stringinfo_from mem (tuple_of_buf (image_buf change))
               (is_delete (action change)) 0 pre
               (change_head relation change ++ cstr ",`data`:{") ;;
       s2 <- tuple_to_stringinfo_from mem (tuple_of_buf (image_buf change))
               (is_delete (action change)) (Z.of_nat (List.length pre) + 1) post
               (if is_delete (action change) then s1
                else s1 ++ separator (Z.of_nat (List.length pre))
                        ++ field_name attr ++ "null") ;;
       Some (delivered ctx (s2 ++ "}}"))).
Proof.
  intros mem ctx txn relation change pre attr post origval Ha Hatt Hd Hn Hp Hg.
  rewrite (pg_decode_change_eq _ _ _ _ _ Ha), Hp.
  unfold tuple_to_stringinfo. rewrite Hatt, from_app.
  destruct (tuple_to_stringinfo_from mem _ _ 0 pre _) as [s1|]; [|reflexivity].
  cbn [bind tuple_to_stringinfo_from]. rewrite Z.add_0_l.
  destruct (is_delete (action change)).
  - now rewrite (body_skipped_null _ _ _ _ _ _ Hg).
  - rewrite (body_rendered _ _ _ _ _ _ _ _ Hd Hn Hg eq_refl).
    now rewrite column_literal_null.
Qed.

(** A row change whose image gives a column of the row that the loop does
    not pass over: what the callback returns, with the member of that column
    between what the columns before it and after it give. *)
Lemma row_change_rendered_column
  mem ctx txn relation change pre attr post origval isnull :
  action change <> REORDER_BUFFER_CHANGE_OTHER ->
  rd_att relation = (pre ++ attr :: post)%list ->
  attisdropped attr = false ->
  (attnum attr <? 0) = false ->
  (tuple_of_buf (image_buf change) =? NULL) = false ->
  fastgetattr mem (tuple_of_buf (image_buf change)) (Z.of_nat (List.length pre) + 1)
  = Some (origval, isnull) ->
  isnull && is_delete (action change) = false ->
  pg_decode_change mem ctx txn relation change
  = (s1 <- tuple_to_stringinfo_from mem (tuple_of_buf (image_buf change))
             (is_delete (action change)) 0 pre
             (change_head relation change ++ cstr ",`data`:{") ;;
     s2 <- tuple_to_stringinfo_from mem (tuple_of_buf (image_buf change))
             (is_delete (action change)) (Z.of_nat (List.length pre) + 1) post
             (s1 ++ separator (Z.of_nat (List.length pre))
                 ++ field_name attr ++ column_literal attr origval isnull) ;;
     Some (delivered ctx (s2 ++ "}}"))).
Proof.
  intros Ha Hatt Hd Hn Hp Hg Hs.
  rewrite (pg_decode_change_eq _ _ _ _ _ Ha), Hp.
  unfold tuple_to_stringinfo. rewrite Hatt, from_app.
  destruct (tuple_to_stringinfo_from mem _ _ 0 pre _) as [s1|]; [|reflexivity].
  cbn [bind tuple_to_stringinfo_from]. rewrite Z.add_0_l.
  now rewrite (body_rendered _ _ _ _ _ _ _ _ Hd Hn Hg Hs).
Qed.

(** The message such a row change writes holds the member of the column:
    its name between double quotes, the colon and its literal. *)
Lemma row_change_holds_member
  mem ctx txn relation change pre attr post origval isnull ctx' :
  action change <> REORDER_BUFFER_CHANGE_OTHER ->
  rd_att relation = (pre ++ attr :: post)%list ->
  attisdropped attr = false ->
  (attnum attr <? 0) = false ->
  (tuple_of_buf (image_buf change) =? NULL) = false ->
  fastgetattr mem (tuple_of_buf (image_buf change)) (Z.of_nat (List.length pre) + 1)
  = Some (origval, isnull) ->
  isnull && is_delete (action change) = false ->
  pg_decode_change mem ctx txn relation change = Some ctx' ->
  exists before after,
    out ctx' = before ++ field_name attr ++ column_literal attr origval isnull ++ after
    /\ written ctx'
       = (written ctx
          ++ [(before ++ field_name attr ++ column_literal attr origval isnull
               ++ after)%string])%list.
Proof.
  intros Ha Hatt Hd Hn Hp Hg Hs H.
  rewrite (row_change_rendered_column _ _ _ _ _ _ _ _ _ _ Ha Hatt Hd Hn Hp Hg Hs) in H.
  destruct (tuple_to_stringinfo_from mem _ _ 0 pre _) as [s1|]; [|discriminate].
  cbn [bind] in H. rewrite from_prefix in H.
  destruct (tuple_to_stringinfo_from mem _ _ _ post EmptyString) as [f|];
    [|discriminate].
  cbn [bind] in H.
  assert (Hc : ctx' = delivered ctx
                        (((s1 ++ separator (Z.of_nat (List.length pre))
                              ++ field_name attr
                              ++ column_literal attr origval isnull) ++ f) ++ "}}"))
    by congruence.
  clear H. subst ctx'.
  exists (s1 ++ separator (Z.of_nat (List.length pre))), (f ++ "}}").
  assert (E : ((s1 ++ separator (Z.of_nat (List.length pre))
                   ++ field_name attr
                   ++ column_literal attr origval isnull) ++ f) ++ "}}"
              = (s1 ++ separator (Z.of_nat (List.length pre)))
                ++ field_name attr ++ column_literal attr origval isnull
                ++ f ++ "}}").
  { now rewrite !append_assoc. }
  rewrite E. split; reflexivity.
Qed.

Lemma column_literal_toast attr origval :
  snd (getTypeOutputInfo (atttypid attr)) = true ->
  VARATT_IS_EXTERNAL_ONDISK origval = true ->
  column_literal attr origval false = cstr "`???unchanged-toast-datum???`".
Proof.
  intros Hv Hx. unfold column_literal.
  destruct (getTypeOutputInfo (atttypid attr)) as [typoutput typisvarlena].
  simpl in Hv. subst typisvarlena. now rewrite Hx.
Qed.

(** C7.  In a row change of any kind whose image gives, for a column of the
    row, a datum that is not NULL, of a varlena type, and points to an
    on-disk TOAST value, the callback returns what the columns before and
    after it give with, between them, the member of that column: its name
    and the sentinel ???unchanged-toast-datum??? in double quotes.  The
    message written holds that member: the column is neither left out nor
    rendered as null. *)
Theorem C7_unchanged_toast_sentinel :
  forall mem ctx txn relation change pre attr post origval,
    action change <> REORDER_BUFFER_CHANGE_OTHER ->
    rd_att relation = (pre ++ attr :: post)%list ->
    attisdropped attr = false ->
    (attnum attr <? 0) = false ->
    (tuple_of_buf (image_buf change) =? NULL) = false ->
    fastgetattr mem (tuple_of_buf (image_buf change)) (Z.of_nat (List.length pre) + 1)
    = Some (origval, false) ->
    snd (getTypeOutputInfo (atttypid attr)) = true ->
    VARATT_IS_EXTERNAL_ONDISK origval = true ->
    pg_decode_change mem ctx txn relation change
    = (s1 <- tuple_to_stringinfo_from mem (tuple_of_buf (image_buf change))
               (is_delete (action change)) 0 pre
               (change_head relation change ++ cstr ",`data`:{") ;;
       s2 <- tuple_to_stringinfo_from mem (tuple_of_buf (image_buf change))
               (is_delete (action change)) (Z.of_nat (List.length pre) + 1) post
               (s1 ++ separator (Z.of_nat (List.length pre))
                   ++ field_name attr ++ cstr "`???unchanged-toast-datum???`") ;;
       Some (delivered ctx (s2 ++ "}}")))
    /\ forall ctx',
         pg_decode_change mem ctx txn relation change = Some ctx' ->
         exists before after,
           out ctx'
           = before ++ field_name attr ++ cstr "`???unchanged-toast-datum???`" ++ after
           /\ written ctx'
              = (written ctx
                 ++ [(before ++ field_name attr
                      ++ cstr "`???unchanged-toast-datum???`" ++ after)%string])%list.
Proof.
  intros mem ctx txn relation change pre attr post origval Ha Hatt Hd Hn Hp Hg Hv Hx.
  rewrite <- (column_literal_toast attr origval Hv Hx).
  split.
  - exact (row_change_rendered_column _ _ _ _ _ _ _ _ _ _ Ha Hatt Hd Hn Hp Hg eq_refl).
  - intros ctx' H.
    exact (row_change_holds_member _ _ _ _ _ _ _ _ _ _ _ Ha Hatt Hd Hn Hp Hg eq_refl H).
Qed.

Lemma print_literal_numeric (s : StringInfo) (typid : Oid) (outputstr : string) :
  is_numeric_case typid = true -> print_literal s typid outputstr = s ++ outputstr.
Proof. intros H. unfold print_literal. now rewrite H. Qed.

Lemma numeric_oids_case (typid : Oid) :
  In typid numeric_oids -> is_numeric_case typid = true.
Proof.
  unfold numeric_oids. simpl.
  intros [H|[H|[H|[H|[H|[H|[H|[]]]]]]]]; subst typid; reflexivity.
Qed.

Lemma column_literal_numeric attr origval :
  In (atttypid attr) numeric_oids ->
  snd (getTypeOutputInfo (atttypid attr)) && VARATT_IS_EXTERNAL_ONDISK origval = false ->
  column_literal attr origval false
  = OidOutputFunctionCall (fst (getTypeOutputInfo (atttypid attr)))
      (if snd (getTypeOutputInfo (atttypid attr))
       then PG_DETOAST_DATUM origval else origval).
Proof.
  intros Hin Hx. unfold column_literal.
  destruct (getTypeOutputInfo (atttypid attr)) as [typoutput typisvarlena].
  simpl in Hx |- *. rewrite Hx.
  rewrite print_literal_numeric by now apply numeric_oids_case.
  reflexivity.
Qed.

(** C8, as the code has it.  For each of the seven numeric type identifiers
    print_literal appends the raw text as it is, with no quotes.  In a row
    change of any kind whose image gives, for a column of the row of such a
    type, a datum that is not NULL and is no pointer to an on-disk TOAST
    value, the callback returns what the columns before and after it give
    with, between them, the member of that column: its name followed by the
    text its output function returns, as it is.  The message written holds
    that member. *)
Theorem C8_numeric_verbatim :
  Forall (fun typid => forall s outputstr,
            print_literal s typid outputstr = s ++ outputstr) numeric_oids
  /\ forall mem ctx txn relation change pre attr post origval,
       action change <> REORDER_BUFFER_CHANGE_OTHER ->
       rd_att relation = (pre ++ attr :: post)%list ->
       attisdropped attr = false ->
       (attnum attr <? 0) = false ->
       (tuple_of_buf (image_buf change) =? NULL) = false ->
       fastgetattr mem (tuple_of_buf (image_buf change))
         (Z.of_nat (List.length pre) + 1)
       = Some (origval, false) ->
       In (atttypid attr) numeric_oids ->
       snd (getTypeOutputInfo (atttypid attr)) && VARATT_IS_EXTERNAL_ONDISK origval
       = false ->
       pg_decode_change mem ctx txn relation change
       = (s1 <- tuple_to_stringinfo_from mem (tuple_of_buf (image_buf change))
                  (is_delete (action change)) 0 pre
                  (change_head relation change ++ cstr ",`data`:{") ;;
          s2 <- tuple_to_stringinfo_from mem (tuple_of_buf (image_buf change))
                  (is_delete (action change)) (Z.of_nat (List.length pre) + 1) post
                  (s1 ++ separator (Z.of_nat (List.length pre))
                      ++ field_name attr
                      ++ OidOutputFunctionCall
                           (fst (getTypeOutputInfo (atttypid attr)))
                           (if snd (getTypeOutputInfo (atttypid attr))
                            then PG_DETOAST_DATUM origval else origval)) ;;
          Some (delivered ctx (s2 ++ "}}")))
       /\ forall ctx',
            pg_decode_change mem ctx txn relation change = Some ctx' ->
            exists before after,
              out ctx'
              = before ++ field_name attr
                ++ OidOutputFunctionCall
                     (fst (getTypeOutputInfo (atttypid attr)))
                     (if snd (getTypeOutputInfo (atttypid attr))
                      then PG_DETOAST_DATUM origval else origval)
                ++ after
              /\ written ctx'
                 = (written ctx
                    ++ [(before ++ field_name attr
                         ++ OidOutputFunctionCall
                              (fst (getTypeOutputInfo (atttypid attr)))
                              (if snd (getTypeOutputInfo (atttypid attr))
                               then PG_DETOAST_DATUM origval else origval)
                         ++ after)%string])%list.
Proof.
  split.
  - repeat constructor.
  - intros mem ctx txn relation change pre attr post origval
      Ha Hatt Hd Hn Hp Hg Hin Hx.
    rewrite <- (column_literal_numeric attr origval Hin Hx).
    split.
    + exact (row_change_rendered_column _ _ _ _ _ _ _ _ _ _
               Ha Hatt Hd Hn Hp Hg eq_refl).
    + intros ctx' H.
      exact (row_change_holds_member _ _ _ _ _ _ _ _ _ _ _
               Ha Hatt Hd Hn Hp Hg eq_refl H).
Qed.

End RowProperties.

Lemma C5_null_columns_witness :
  PgHost.messages
    (pg_decode_change (PgHost.one_tuple (PgHost.buf + 8) [Some (PgHost.Plain "1"); None])
       PgHost.ctx0 PgHost.txn0 PgHost.orders (PgHost.delete_of PgHost.buf))
  = Some [cstr "{`type`:`table`,`name`:`public.orders`,`change`:`DELETE`,`data`:{`id`:1}}"]
  /\ PgHost.messages
       (pg_decode_change (PgHost.one_tuple (PgHost.buf + 8) [Some (PgHost.Plain "1"); None])
          PgHost.ctx0 PgHost.txn0 PgHost.orders (PgHost.update_of PgHost.buf))
     = Some [cstr "{`type`:`table`,`name`:`public.orders`,`change`:`UPDATE`,`data`:{`id`:1,`note`:null}}"].
Proof.
  split.
  - rewrite (C5_null_columns
               (PgHost.one_tuple (PgHost.buf + 8) [Some (PgHost.Plain "1"); None])
               PgHost.ctx0 PgHost.txn0 PgHost.orders (PgHost.delete_of PgHost.buf)
               [PgHost.column "id" INT4OID 1] (PgHost.column "note" PgHost.TEXTOID 2) []
               PgHost.Zero ltac:(discriminate) eq_refl eq_refl eq_refl eq_refl eq_refl).
    reflexivity.
  - rewrite (C5_null_columns
               (PgHost.one_tuple (PgHost.buf + 8) [Some (PgHost.Plain "1"); None])
               PgHost.ctx0 PgHost.txn0 PgHost.orders (PgHost.update_of PgHost.buf)
               [PgHost.column "id" INT4OID 1] (PgHost.column "note" PgHost.TEXTOID 2) []
               PgHost.Zero ltac:(discriminate) eq_refl eq_refl eq_refl eq_refl eq_refl).
    reflexivity.
Defined.

(** C8 as the specification words it fails for an UPDATE of public.items
    whose numeric column price holds a pointer to an on-disk TOAST value:
    what the message has after the member name is the sentinel in double
    quotes and the closing braces, not the text of the value. *)
Lemma C8_counterexample :
  In (atttypid (PgHost.column "price" NUMERICOID 2)) numeric_oids
  /\ PgHost.messages
       (pg_decode_change
          (PgHost.one_tuple (PgHost.buf + 8) [Some (PgHost.Plain "1"); Some PgHost.OnDisk])
          PgHost.ctx0 PgHost.txn0 PgHost.items (PgHost.update_of PgHost.buf))
     = Some [cstr "{`type`:`table`,`name`:`public.items`,`change`:`UPDATE`,`data`:{`id`:1,`price`:`???unchanged-toast-datum???`}}"]
  /\ forall raw,
       PgHost.messages
         (pg_decode_change
            (PgHost.one_tuple (PgHost.buf + 8)
               [Some (PgHost.Plain "1"); Some PgHost.OnDisk])
            PgHost.ctx0 PgHost.txn0 PgHost.items (PgHost.update_of PgHost.buf))
       = Some [(cstr "{`type`:`table`,`name`:`public.items`,`change`:`UPDATE`,`data`:{`id`:1,`price`:" ++ raw)%string] ->
       raw = cstr "`???unchanged-toast-datum???`}}".
Proof.
  split; [simpl; tauto|]. split; [reflexivity|].
  intros raw H.
  apply (f_equal (fun r => match r with
                           | Some (msg :: _) => msg
                           | _ => EmptyString
                           end)) in H.
  symmetry.
  apply (append_inv_head
           (cstr "{`type`:`table`,`name`:`public.items`,`change`:`UPDATE`,`data`:{`id`:1,`price`:")).
  exact H.
Qed.

Lemma C7_unchanged_toast_sentinel_witness :
  PgHost.messages
    (pg_decode_change
       (PgHost.one_tuple (PgHost.buf + 8) [Some (PgHost.Plain "1"); Some PgHost.OnDisk])
       PgHost.ctx0 PgHost.txn0 PgHost.orders (PgHost.update_of PgHost.buf))
  = Some [cstr "{`type`:`table`,`name`:`public.orders`,`change`:`UPDATE`,`data`:{`id`:1,`note`:`???unchanged-toast-datum???`}}"].
Proof.
  rewrite (proj1 (C7_unchanged_toast_sentinel
             (PgHost.one_tuple (PgHost.buf + 8) [Some (PgHost.Plain "1"); Some PgHost.OnDisk])
             PgHost.ctx0 PgHost.txn0 PgHost.orders (PgHost.update_of PgHost.buf)
             [PgHost.column "id" INT4OID 1] (PgHost.column "note" PgHost.TEXTOID 2) []
             PgHost.OnDisk ltac:(discriminate)
             eq_refl eq_refl eq_refl eq_refl eq_refl eq_refl eq_refl)).
  reflexivity.
Defined.

Lemma C8_numeric_verbatim_witness :
  PgHost.messages
    (pg_decode_change
       (PgHost.one_tuple (PgHost.buf + 8)
          [Some (PgHost.Plain "1"); Some (PgHost.Compressed "3.14")])
       PgHost.ctx0 PgHost.txn0 PgHost.items (PgHost.insert_of PgHost.buf))
  = Some [cstr "{`type`:`table`,`name`:`public.items`,`change`:`INSERT`,`data`:{`id`:1,`price`:3.14}}"].
Proof.
  rewrite (proj1 (proj2 C8_numeric_verbatim
             (PgHost.one_tuple (PgHost.buf + 8)
                [Some (PgHost.Plain "1"); Some (PgHost.Compressed "3.14")])
             PgHost.ctx0 PgHost.txn0 PgHost.items (PgHost.insert_of PgHost.buf)
             [PgHost.column "id" INT4OID 1] (PgHost.column "price" NUMERICOID 2) []
             (PgHost.Compressed "3.14") ltac:(discriminate)
             eq_refl eq_refl eq_refl eq_refl eq_refl
             (or_intror (or_intror (or_intror (or_intror (or_intror (or_intror
                (or_introl eq_refl)))))))
             eq_refl)).
  reflexivity.
Defined.

(** ** The test on the tuple pointer *)

Lemma tuple_of_buf_not_null {host : Host} (b : Pointer) :
  0 < offsetof_tuple -> 0 <= b -> (tuple_of_buf b =? NULL) = false.
Proof. intros Ho Hb. unfold tuple_of_buf, NULL. apply Z.eqb_neq. lia. Qed.

(** With the member [tuple] behind the head of its buffer, every row change
    takes the data branch, a DELETE that has no old image too. *)
Lemma row_change_data_branch {host : Host} mem ctx txn relation change :
  action change <> REORDER_BUFFER_CHANGE_OTHER ->
  0 < offsetof_tuple ->
  0 <= image_buf change ->
  pg_decode_change mem ctx txn relation change
  = (s <- tuple_to_stringinfo mem (change_head relation change ++ cstr ",`data`:{")
            (rd_att relation) (tuple_of_buf (image_buf change))
            (is_delete (action change)) ;;
     Some (delivered ctx (s ++ "}}"))).
Proof.
  intros Ha Ho Hb. rewrite (pg_decode_change_eq _ _ _ _ _ Ha).
  now rewrite (tuple_of_buf_not_null _ Ho Hb).
Qed.

(** Were [tuple] the first member of its buffer, a change without image
    would end after the change kind. *)
Lemma row_change_flat_layout {host : Host} mem ctx txn relation change :
  action change <> REORDER_BUFFER_CHANGE_OTHER ->
  offsetof_tuple = 0 ->
  image_buf change = NULL ->
  pg_decode_change mem ctx txn relation change
  = Some (delivered ctx (change_head relation change ++ "}")).
Proof.
  intros Ha Ho Hb. rewrite (pg_decode_change_eq _ _ _ _ _ Ha).
  unfold tuple_of_buf. now rewrite Ho, Hb.
Qed.

(** C6 at a DELETE for which the host supplied no old image.  On a table
    without columns the object carries an empty data member; on
    public.orders the callback reads the tuple at the address of the member
    and faults. *)
Theorem C6_delete_without_old_image :
  PgHost.messages
    (pg_decode_change PgHost.no_tuple PgHost.ctx0 PgHost.txn0 PgHost.no_columns
       (PgHost.delete_of NULL))
  = Some [cstr "{`type`:`table`,`name`:`public.t`,`change`:`DELETE`,`data`:{}}"]
  /\ pg_decode_change PgHost.no_tuple PgHost.ctx0 PgHost.txn0 PgHost.orders
       (PgHost.delete_of NULL)
     = None.
Proof. split; reflexivity. Qed.

(** ** The data object as a list of members *)

Section Members.

Context {host : Host}.




End Members.

(** ** Commas *)

(** C2 at two row images whose first column is not rendered: a DELETE whose
    old image holds NULL in the first column, and an INSERT into a table
    whose first column was dropped.  The comma depends on the index of the
    attribute, not on a member having been written, and the data object
    opens with a comma. *)
Theorem C2_leading_comma :
  PgHost.messages
    (pg_decode_change (PgHost.one_tuple (PgHost.buf + 8) [None; Some (PgHost.Plain "1")])
       PgHost.ctx0 PgHost.txn0 PgHost.orders_note_first (PgHost.delete_of PgHost.buf))
  = Some [cstr "{`type`:`table`,`name`:`public.orders`,`change`:`DELETE`,`data`:{,`id`:1}}"]
  /\ PgHost.messages
       (pg_decode_change (PgHost.one_tuple (PgHost.buf + 8) [None; Some (PgHost.Plain "1")])
          PgHost.ctx0 PgHost.txn0 PgHost.orders_dropped_first (PgHost.insert_of PgHost.buf))
     = Some [cstr "{`type`:`table`,`name`:`public.orders`,`change`:`INSERT`,`data`:{,`id`:1}}"].
Proof. split; reflexivity. Qed.

(** ** Names *)

Lemma tuple_to_stringinfo_prefix {host : Host} mem s tupdesc tuple skip_nulls :
  tuple_to_stringinfo mem s tupdesc tuple skip_nulls
  = (f <- tuple_to_stringinfo mem EmptyString tupdesc tuple skip_nulls ;; Some (s ++ f)).
Proof. unfold tuple_to_stringinfo. apply from_prefix. Qed.



(** * Further properties *)

(** ** print_literal *)

Lemma length_append (a b : string) :
  String.length (a ++ b) = (String.length a + String.length b)%nat.
Proof. induction a as [|ch a IH]; simpl; [reflexivity | now rewrite IH]. Qed.

Lemma split_last_append (a : string) (c : ascii) :
  split_last (a ++ String c EmptyString) = Some (a, c).
Proof.
  induction a as [|ch a IH]; simpl; [reflexivity | now rewrite IH].
Qed.

Lemma undouble_double_char (q : ascii) (str : string) :
  undouble q (double_char q str) = str.
Proof.
  induction str as [|ch rest IH]; [reflexivity|].
  cbn [double_char]. destruct (Ascii.eqb ch q) eqn:E.
  - cbn [undouble]. rewrite E. now rewrite IH.
  - cbn [undouble]. rewrite E. now rewrite IH.
Qed.

Lemma length_double_char (q : ascii) (str : string) :
  String.length (double_char q str) = (String.length str + count_char q str)%nat.
Proof.
  induction str as [|ch rest IH]; [reflexivity|].
  cbn [double_char count_char]. destruct (Ascii.eqb ch q); simpl; rewrite IH; lia.
Qed.

(** X1.  A bit string is rendered as B, the bits between single quotes as
    the output function gave them, the whole between double quotes. *)
Theorem print_literal_bit_string :
  forall (s : StringInfo) (typid : Oid) (outputstr : string),
    is_bit_case typid = true ->
    print_literal s typid outputstr = s ++ cstr "`B'" ++ outputstr ++ cstr "'`".
Proof.
  intros s typid outputstr H. unfold print_literal.
  replace (is_numeric_case typid) with false.
  - rewrite H. unfold appendStringInfo. reflexivity.
  - unfold is_bit_case in H. apply orb_true_iff in H as [H|H];
      apply Z.eqb_eq in H; subst typid; reflexivity.
Qed.

Lemma print_literal_bit_string_witness :
  print_literal (cstr "`flags`:") VARBITOID "1011" = cstr "`flags`:`B'1011'`".
Proof.
  rewrite (print_literal_bit_string (cstr "`flags`:") VARBITOID "1011" eq_refl).
  reflexivity.
Defined.

(** X2.  A generic-text literal can be read back: without the double quotes
    around it and with every doubled single quote read as one, it is the
    raw text.  Two raw texts with the same literal are therefore equal. *)
Theorem print_literal_default_round_trip :
  forall (typid : Oid) (outputstr : string),
    default_case typid = true ->
    text_of_literal (print_literal EmptyString typid outputstr) = Some outputstr
    /\ forall other,
         print_literal EmptyString typid other
         = print_literal EmptyString typid outputstr ->
         other = outputstr.
Proof.
  intros typid outputstr H.
  assert (R : forall str,
             text_of_literal (print_literal EmptyString typid str) = Some str).
  { intros str. rewrite (print_literal_default _ _ _ H). cbn [append text_of_literal].
    rewrite Ascii.eqb_refl, split_last_append, Ascii.eqb_refl.
    now rewrite undouble_double_char. }
  split; [apply R|].
  intros other E. pose proof (R other) as Ho. rewrite E, R in Ho.
  now injection Ho.
Qed.

Lemma print_literal_default_round_trip_witness :
  text_of_literal (print_literal EmptyString PgHost.TEXTOID (cstr "it's `so`"))
  = Some (cstr "it's `so`").
Proof.
  exact (proj1 (print_literal_default_round_trip PgHost.TEXTOID (cstr "it's `so`") eq_refl)).
Defined.

(** X3.  A generic-text literal is longer than the raw text by the two
    double quotes and by one character for each single quote. *)
Theorem print_literal_default_length :
  forall (s : StringInfo) (typid : Oid) (outputstr : string),
    default_case typid = true ->
    String.length (print_literal s typid outputstr)
    = (String.length s + String.length outputstr + count_char squote outputstr + 2)%nat.
Proof.
  intros s typid outputstr H. rewrite (print_literal_default _ _ _ H).
  rewrite length_append. cbn [String.length]. rewrite length_append.
  rewrite length_double_char. cbn [String.length]. lia.
Qed.

Lemma print_literal_default_length_witness :
  String.length (print_literal "x" PgHost.TEXTOID "it's") = 8%nat.
Proof.
  exact (print_literal_default_length "x" PgHost.TEXTOID "it's" eq_refl).
Defined.

(** X4.  Whatever the type, print_literal leaves the text already in the
    buffer as it is and what it appends does not depend on that text. *)
Theorem print_literal_only_appends :
  forall (s1 s2 : StringInfo) (typid : Oid) (outputstr : string),
    print_literal (s1 ++ s2) typid outputstr = s1 ++ print_literal s2 typid outputstr.
Proof.
  intros s1 s2 typid outputstr.
  rewrite (print_literal_prefix (s1 ++ s2)), (print_literal_prefix s2).
  apply append_assoc.
Qed.

(** ** tuple_to_stringinfo *)

Section TupleProperties.

Context {host : Host}.




(** X6.  When the tuple pointer holds no tuple, tuple_to_stringinfo faults
    exactly when the descriptor has a column of the row; when every
    attribute is dropped or a system attribute, or there is none, it never
    reads the tuple and leaves the buffer as it is. *)
Theorem tuple_to_stringinfo_unmapped :
  forall mem s tupdesc tuple skip_nulls,
    mem tuple = None ->
    tuple_to_stringinfo mem s tupdesc tuple skip_nulls
    = if existsb live tupdesc then None else Some s.
Proof.
  intros mem s tupdesc tuple skip_nulls Hm. unfold tuple_to_stringinfo.
  generalize 0 as natt. revert s.
  induction tupdesc as [|a attrs IH]; intros s natt; [reflexivity|].
  cbn [tuple_to_stringinfo_from existsb]. unfold live at 1.
  destruct (attisdropped a) eqn:Hd.
  { rewrite body_dropped by exact Hd. cbn [bind negb andb orb]. apply IH. }
  destruct (attnum a <? 0) eqn:Hn.
  { rewrite body_system by exact Hn. cbn [bind negb andb orb]. apply IH. }
  cbn [negb andb orb]. unfold tuple_to_stringinfo_body, fastgetattr.
  now rewrite Hd, Hn, Hm.
Qed.




(** X9.  tuple_to_stringinfo leaves the text already in the buffer as it is,
    and what it appends, or whether it faults, does not depend on that
    text. *)
Theorem tuple_to_stringinfo_only_appends :
  forall mem s1 s2 tupdesc tuple skip_nulls,
    tuple_to_stringinfo mem (s1 ++ s2) tupdesc tuple skip_nulls
    = (r <- tuple_to_stringinfo mem s2 tupdesc tuple skip_nulls ;; Some (s1 ++ r)).
Proof.
  intros mem s1 s2 tupdesc tuple skip_nulls. unfold tuple_to_stringinfo.
  rewrite (from_prefix _ _ _ _ _ (s1 ++ s2)), (from_prefix _ _ _ _ _ s2).
  destruct (tuple_to_stringinfo_from mem tuple skip_nulls 0 tupdesc EmptyString)
    as [f|]; [|reflexivity].
  cbn [bind]. now rewrite append_assoc.
Qed.

End TupleProperties.

Lemma tuple_to_stringinfo_unmapped_witness :
  tuple_to_stringinfo PgHost.no_tuple "{" (rd_att PgHost.orders) 8 true = None
  /\ tuple_to_stringinfo PgHost.no_tuple "{" (rd_att PgHost.no_columns) 8 true
     = Some "{".
Proof.
  split.
  - exact (tuple_to_stringinfo_unmapped PgHost.no_tuple "{" (rd_att PgHost.orders)
             8 true eq_refl).
  - exact (tuple_to_stringinfo_unmapped PgHost.no_tuple "{" (rd_att PgHost.no_columns)
             8 true eq_refl).
Defined.



(** ** pg_decode_change *)

Lemma strip_prefix_append (p s : string) : strip_prefix p (p ++ s) = Some s.
Proof.
  induction p as [|c p IH]; simpl; [reflexivity|].
  now rewrite Ascii.eqb_refl.
Qed.

Lemma well_framed_object (body : string) :
  well_framed (cstr "{`type`:`" ++ body ++ "}") = true.
Proof.
  unfold well_framed. rewrite strip_prefix_append.
  rewrite <- append_assoc, split_last_append. reflexivity.
Qed.

Lemma pg_decode_change_other {host : Host} mem ctx txn relation change :
  action change = REORDER_BUFFER_CHANGE_OTHER ->
  pg_decode_change mem ctx txn relation change = None.
Proof. intros H. unfold pg_decode_change. now rewrite H. Qed.

Lemma row_change_result :
  forall (host : Host) mem ctx txn relation change ctx',
    pg_decode_change (host := host) mem ctx txn relation change = Some ctx' ->
    exists middle,
      (middle = EmptyString \/ exists f, middle = cstr ",`data`:{" ++ f ++ "}")
      /\ written ctx'
      = (written ctx ++ [(change_head relation change ++ middle ++ "}")%string])%list
      /\ out ctx' = change_head relation change ++ middle ++ "}"
      /\ well_framed (change_head relation change ++ middle ++ "}") = true
      /\ xact_wrote_changes (output_plugin_private ctx') = true.
Proof.
  intros host mem ctx txn relation change ctx' H.
  assert (Ha : action change <> REORDER_BUFFER_CHANGE_OTHER).
  { intros Ha. rewrite (pg_decode_change_other _ _ _ _ _ Ha) in H. discriminate. }
  assert (W : forall middle,
             well_framed (change_head relation change ++ middle ++ "}") = true).
  { intros middle.
    replace (change_head relation change ++ middle ++ "}")
      with (cstr "{`type`:`"
            ++ (cstr "table`,`name`:`"
                ++ quote_qualified_identifier
                     (get_namespace_name (get_rel_namespace (rd_id relation)))
                     (relname relation)
                ++ cstr "`,`change`:`" ++ change_name (action change)
                ++ String dquote EmptyString ++ middle)
            ++ "}")
      by (unfold change_head; rewrite !append_assoc; reflexivity).
    apply well_framed_object. }
  rewrite (pg_decode_change_eq _ _ _ _ _ Ha) in H.
  destruct (tuple_of_buf (image_buf change) =? NULL).
  - injection H as <-. exists EmptyString. cbn [append].
    split; [now left|]. repeat split; try reflexivity. apply (W EmptyString).
  - rewrite tuple_to_stringinfo_prefix in H.
    destruct (tuple_to_stringinfo mem EmptyString _ _ _) as [f|]; [|discriminate].
    cbn [bind] in H.
    assert (Hc : ctx' = delivered ctx
                          (((change_head relation change ++ cstr ",`data`:{") ++ f)
                           ++ "}}"))
      by congruence.
    clear H. subst ctx'.
    assert (E : ((change_head relation change ++ cstr ",`data`:{") ++ f) ++ "}}"
                = change_head relation change
                  ++ (cstr ",`data`:{" ++ f ++ "}") ++ "}").
    { now rewrite !append_assoc. }
    exists (cstr ",`data`:{" ++ f ++ "}").
    split; [right; now exists f|].
    rewrite E. repeat split; try reflexivity. apply W.
Qed.

(** X10.  A row change that returns has handed exactly one message to the
    transport, after those already there: an object that opens with the
    type, name and change members, goes on with nothing or with one data
    member, and ends with a closing brace.  It is also what the buffer
    holds, and the flag of the transaction is set. *)
Theorem pg_decode_change_message :
  forall (host : Host) mem ctx txn relation change ctx',
    pg_decode_change (host := host) mem ctx txn relation change = Some ctx' ->
    exists middle,
      (middle = EmptyString \/ exists f, middle = cstr ",`data`:{" ++ f ++ "}")
      /\ written ctx'
      = (written ctx ++ [(change_head relation change ++ middle ++ "}")%string])%list
      /\ out ctx' = change_head relation change ++ middle ++ "}"
      /\ well_framed (change_head relation change ++ middle ++ "}") = true
      /\ xact_wrote_changes (output_plugin_private ctx') = true.
Proof. exact row_change_result. Qed.

(** X11.  A row change looks at one tuple buffer only: the new one for
    INSERT and UPDATE, the old one for DELETE.  Two changes of the same kind
    with that buffer in common give the same result, whatever the other
    buffer is; the old image of an UPDATE is never rendered. *)
Theorem pg_decode_change_one_image :
  forall (host : Host) mem ctx txn relation change change',
    action change = action change' ->
    image_buf change = image_buf change' ->
    pg_decode_change (host := host) mem ctx txn relation change
    = pg_decode_change (host := host) mem ctx txn relation change'.
Proof.
  intros host mem ctx txn relation change change' Ha Hb.
  destruct (action change) eqn:E.
  4: { rewrite (pg_decode_change_other _ _ _ _ _ E).
       symmetry. apply pg_decode_change_other. now rewrite <- Ha. }
  all: rewrite !pg_decode_change_eq by (rewrite <- ?Ha, ?E; discriminate);
    unfold change_head; now rewrite <- Ha, <- Hb, E.
Qed.

(** X12.  The message of a row change depends on the relation, the change
    and the tuple alone: what the buffer held before, the messages written
    before, the flag and the transaction do not enter it, and they do not
    decide whether the call faults. *)
Theorem pg_decode_change_no_hidden_input :
  forall (host : Host) mem ctx ctx' txn txn' relation change,
    option_map out (pg_decode_change (host := host) mem ctx txn relation change)
    = option_map out (pg_decode_change (host := host) mem ctx' txn' relation change).
Proof.
  intros host mem ctx ctx' txn txn' relation change.
  destruct (action change) eqn:E.
  4: { now rewrite !(pg_decode_change_other _ _ _ _ _ E). }
  all: rewrite !pg_decode_change_eq by (rewrite E; discriminate);
    destruct (tuple_of_buf (image_buf change) =? NULL); [reflexivity|];
    destruct (tuple_to_stringinfo mem _ _ _ _); reflexivity.
Qed.

Lemma pg_decode_change_message_witness :
  exists middle,
    PgHost.messages
      (pg_decode_change
         (PgHost.one_tuple (PgHost.buf + 8) [Some (PgHost.Plain "1"); None])
         PgHost.ctx0 PgHost.txn0 PgHost.orders (PgHost.insert_of PgHost.buf))
    = Some [(change_head PgHost.orders (PgHost.insert_of PgHost.buf) ++ middle ++ "}")%string].
Proof.
  destruct (pg_decode_change
              (PgHost.one_tuple (PgHost.buf + 8) [Some (PgHost.Plain "1"); None])
              PgHost.ctx0 PgHost.txn0 PgHost.orders (PgHost.insert_of PgHost.buf))
    as [ctx'|] eqn:E; [|discriminate E].
  destruct (pg_decode_change_message PgHost.pg_host _ _ _ _ _ _ E)
    as (middle & _ & Hw & _).
  exists middle. cbn [PgHost.messages]. now rewrite Hw.
Defined.

Lemma pg_decode_change_one_image_witness :
  pg_decode_change
    (PgHost.one_tuple (PgHost.buf + 8) [Some (PgHost.Plain "1"); None])
    PgHost.ctx0 PgHost.txn0 PgHost.orders
    {| action := REORDER_BUFFER_CHANGE_UPDATE; oldtuple := 8192; newtuple := PgHost.buf |}
  = pg_decode_change
      (PgHost.one_tuple (PgHost.buf + 8) [Some (PgHost.Plain "1"); None])
      PgHost.ctx0 PgHost.txn0 PgHost.orders (PgHost.update_of PgHost.buf).
Proof.
  exact (pg_decode_change_one_image PgHost.pg_host
           (PgHost.one_tuple (PgHost.buf + 8) [Some (PgHost.Plain "1"); None])
           PgHost.ctx0 PgHost.txn0 PgHost.orders
           {| action := REORDER_BUFFER_CHANGE_UPDATE; oldtuple := 8192;
              newtuple := PgHost.buf |}
           (PgHost.update_of PgHost.buf) eq_refl eq_refl).
Defined.

(** ** Transaction objects *)

Lemma json_string_body_digits (d : Decimal.uint) (tl : string) :
  json_string_body (NilEmpty.string_of_uint d ++ String dquote tl)
  = Some (NilEmpty.string_of_uint d, tl).
Proof.
  induction d; cbn [NilEmpty.string_of_uint append];
    [reflexivity | cbn [json_string_body]; rewrite IHd; reflexivity ..].
Qed.

Lemma json_string_body_fmt_u (x : Z) (tl : string) :
  json_string_body (fmt_u x ++ String dquote tl) = Some (fmt_u x, tl).
Proof.
  unfold fmt_u, NilZero.string_of_uint.
  destruct (N.to_uint (Z.to_N (x mod 2 ^ 32))) eqn:E;
    try (rewrite <- E; apply json_string_body_digits).
  reflexivity.
Qed.

(** X13.  The transaction identifier can be read back from both transaction
    objects: the string that follows the xid member name, read as JSON and
    then as a decimal numeral, is the identifier the callback was given. *)
Theorem transaction_xid_round_trip :
  forall (ctx : LogicalDecodingContext) (t : Z),
    0 <= t < 2 ^ 32 ->
    (exists msg,
        written (pg_decode_begin_txn ctx {| xid := t |}) = (written ctx ++ [msg])%list
        /\ xid_of_message (cstr "{`type`:`transaction.begin`,`xid`:`") msg = Some t)
    /\ exists msg,
        written (pg_decode_commit_txn ctx {| xid := t |}) = (written ctx ++ [msg])%list
        /\ xid_of_message (cstr "{`type`:`transaction.commit`,`xid`:`") msg = Some t.
Proof.
  intros ctx t Ht.
  assert (R : forall head,
             xid_of_message head (head ++ fmt_u t ++ cstr "`}") = Some t).
  { intros head. unfold xid_of_message. rewrite strip_prefix_append. cbn [bind].
    change (cstr "`}") with (String dquote "}").
    rewrite json_string_body_fmt_u. cbn [bind String.eqb Ascii.eqb Bool.eqb].
    rewrite (fmt_u_in_range t Ht). apply decimal_value_string. lia. }
  split; eexists; (split; [reflexivity|]); apply R.
Qed.

Lemma transaction_xid_round_trip_witness :
  xid_of_message (cstr "{`type`:`transaction.begin`,`xid`:`")
    (cstr "{`type`:`transaction.begin`,`xid`:`731`}") = Some 731.
Proof.
  assert (H : 0 <= 731 < 2 ^ 32) by (split; [discriminate | reflexivity]).
  destruct (proj1 (transaction_xid_round_trip PgHost.ctx0 731 H)) as (msg & Hw & Hx).
  vm_compute in Hw. injection Hw as <-. exact Hx.
Defined.

(** ** Sequences of callbacks *)

Lemma plugin_step_message {host : Host} ctx ctx' :
  plugin_step ctx ctx' ->
  exists msg,
    written ctx' = (written ctx ++ [msg])%list /\ well_framed msg = true.
Proof.
  intros H. destruct H as [ctx txn | ctx txn | mem ctx txn relation change ctx' H].
  - exists (cstr "{`type`:`transaction.begin`,`xid`:`" ++ fmt_u (xid txn) ++ cstr "`}").
    split; [reflexivity|].
    replace (cstr "{`type`:`transaction.begin`,`xid`:`" ++ fmt_u (xid txn) ++ cstr "`}")
      with (cstr "{`type`:`"
            ++ (cstr "transaction.begin`,`xid`:`" ++ fmt_u (xid txn)
                ++ String dquote EmptyString) ++ "}")
      by (rewrite !append_assoc; reflexivity).
    apply well_framed_object.
  - exists (cstr "{`type`:`transaction.commit`,`xid`:`" ++ fmt_u (xid txn) ++ cstr "`}").
    split; [reflexivity|].
    replace (cstr "{`type`:`transaction.commit`,`xid`:`" ++ fmt_u (xid txn) ++ cstr "`}")
      with (cstr "{`type`:`"
            ++ (cstr "transaction.commit`,`xid`:`" ++ fmt_u (xid txn)
                ++ String dquote EmptyString) ++ "}")
      by (rewrite !append_assoc; reflexivity).
    apply well_framed_object.
  - destruct (row_change_result host _ _ _ _ _ _ H) as (middle & _ & Hw & _ & Hf & _).
    eexists. split; [exact Hw | exact Hf].
Qed.

(** X14.  However the host interleaves the begin, commit and row-change
    callbacks, [n] calls that return leave the messages written before in
    place and add exactly [n] messages after them, one per call, each an
    object that opens with its type member and ends with a closing brace. *)
Theorem plugin_steps_messages :
  forall (host : Host) n ctx ctx',
    plugin_steps (host := host) n ctx ctx' ->
    exists msgs,
      written ctx' = (written ctx ++ msgs)%list
      /\ List.length msgs = n
      /\ forallb well_framed msgs = true.
Proof.
  intros host n ctx ctx' H.
  induction H as [ctx | n ctx ctx' ctx'' H IH Hs].
  - exists []. split; [now rewrite List.app_nil_r | split; reflexivity].
  - destruct IH as (msgs & Hw & Hl & Hf).
    destruct (plugin_step_message _ _ Hs) as (msg & Hw' & Hf').
    exists (msgs ++ [msg])%list. split; [|split].
    + now rewrite Hw', Hw, <- List.app_assoc.
    + rewrite List.length_app. cbn [List.length]. lia.
    + rewrite List.forallb_app, Hf. cbn [forallb]. now rewrite Hf'.
Qed.

Lemma plugin_steps_messages_witness :
  exists ctx' msgs,
    plugin_steps 3 PgHost.ctx0 ctx'
    /\ written ctx' = msgs /\ List.length msgs = 3%nat.
Proof.
  assert (S3 : plugin_steps 3 PgHost.ctx0
                 (pg_decode_commit_txn
                    (delivered (pg_decode_begin_txn PgHost.ctx0 PgHost.txn0)
                       (cstr "{`type`:`table`,`name`:`public.orders`,`change`:`INSERT`,`data`:{`id`:1,`note`:null}}"))
                    PgHost.txn0)).
  { apply steps_more
      with (ctx' := delivered (pg_decode_begin_txn PgHost.ctx0 PgHost.txn0)
                      (cstr "{`type`:`table`,`name`:`public.orders`,`change`:`INSERT`,`data`:{`id`:1,`note`:null}}")).
    - apply steps_more with (ctx' := pg_decode_begin_txn PgHost.ctx0 PgHost.txn0).
      + apply steps_more with (ctx' := PgHost.ctx0).
        * apply steps_none.
        * apply step_begin.
      + apply step_change
          with (mem := PgHost.one_tuple (PgHost.buf + 8) [Some (PgHost.Plain "1"); None])
               (txn := PgHost.txn0) (relation := PgHost.orders)
               (change := PgHost.insert_of PgHost.buf).
        reflexivity.
    - apply step_commit. }
  destruct (plugin_steps_messages PgHost.pg_host 3 _ _ S3) as (msgs & Hw & Hl & _).
  eexists. exists msgs. split; [exact S3|]. split; [exact Hw | exact Hl].
Defined.

(** ** The flag and NULLs *)

(** X15.  The flag of the transaction is written and never read: whatever
    private data the context holds, begin and commit write the same
    messages, and a row change writes the same messages or faults the
    same. *)
Theorem flag_is_write_only :
  forall (host : Host) mem ctx d txn relation change,
    written (pg_decode_begin_txn (set_private ctx d) txn)
    = written (pg_decode_begin_txn ctx txn)
    /\ written (pg_decode_commit_txn (set_private ctx d) txn)
       = written (pg_decode_commit_txn ctx txn)
    /\ option_map written
         (pg_decode_change (host := host) mem (set_private ctx d) txn relation change)
       = option_map written
           (pg_decode_change (host := host) mem ctx txn relation change).
Proof.
  intros host mem ctx d txn relation change.
  split; [|split].
  1, 2: cbv [pg_decode_begin_txn pg_output_begin pg_decode_commit_txn
             OutputPluginPrepareWrite OutputPluginWrite set_out set_private
             written out output_plugin_private]; reflexivity.
  destruct (action change) eqn:E.
  4: { now rewrite !(pg_decode_change_other _ _ _ _ _ E). }
  all: rewrite !pg_decode_change_eq by (rewrite E; discriminate);
    destruct (tuple_of_buf (image_buf change) =? NULL); [reflexivity|];
    destruct (tuple_to_stringinfo mem _ _ _ _); reflexivity.
Qed.

Lemma fastgetattr_value {host : Host} mem tuple t natt :
  mem tuple = Some t ->
  Forall (fun slot => slot <> None) t ->
  0 <= natt ->
  (Z.to_nat natt < List.length t)%nat ->
  exists d, fastgetattr mem tuple (natt + 1) = Some (d, false).
Proof.
  intros Hm Hall H0 Hlt. unfold fastgetattr. rewrite Hm. cbn [bind].
  replace (natt + 1 - 1) with natt by lia.
  destruct (nth_error t (Z.to_nat natt)) as [slot|] eqn:En.
  - destruct slot as [d|]; [eauto|].
    apply nth_error_In in En. rewrite Forall_forall in Hall.
    now destruct (Hall None En).
  - apply nth_error_None in En. lia.
Qed.

(** X16.  skip_nulls matters for NULLs only: for a tuple in memory that
    holds a value in every slot and has a slot for every attribute, the row
    is rendered the same with and without it, so the old image of a DELETE
    reads like the image of an INSERT. *)
Theorem skip_nulls_only_for_nulls :
  forall (host : Host) mem s tupdesc tuple t,
    mem tuple = Some t ->
    Forall (fun slot => slot <> None) t ->
    (List.length tupdesc <= List.length t)%nat ->
    tuple_to_stringinfo (host := host) mem s tupdesc tuple true
    = tuple_to_stringinfo (host := host) mem s tupdesc tuple false.
Proof.
  intros host mem s tupdesc tuple t Hm Hall Hlen. unfold tuple_to_stringinfo.
  assert (G : forall attrs natt s0,
             0 <= natt ->
             (Z.to_nat natt + List.length attrs <= List.length t)%nat ->
             tuple_to_stringinfo_from mem tuple true natt attrs s0
             = tuple_to_stringinfo_from mem tuple false natt attrs s0).
  { induction attrs as [|a attrs IH]; intros natt s0 H0 Hb; [reflexivity|].
    cbn [tuple_to_stringinfo_from List.length] in *.
    assert (B : tuple_to_stringinfo_body mem tuple true s0 natt a
                = tuple_to_stringinfo_body mem tuple false s0 natt a).
    { destruct (fastgetattr_value mem tuple t natt Hm Hall H0 ltac:(lia)) as [d Hd].
      unfold tuple_to_stringinfo_body. rewrite Hd. reflexivity. }
    rewrite B.
    destruct (tuple_to_stringinfo_body mem tuple false s0 natt a) as [s1|];
      [|reflexivity].
    cbn [bind]. apply IH; [lia|]. rewrite Z2Nat.inj_add by lia.
    change (Z.to_nat 1) with 1%nat. lia. }
  apply G; [lia|]. simpl. exact Hlen.
Qed.

Lemma skip_nulls_only_for_nulls_witness :
  tuple_to_stringinfo
    (PgHost.one_tuple (PgHost.buf + 8)
       [Some (PgHost.Plain "1"); Some (PgHost.Plain "late")])
    "{" (rd_att PgHost.orders) (PgHost.buf + 8) true
  = Some (cstr "{`id`:1,`note`:`late`").
Proof.
  assert (Hall : Forall (fun slot : option PgHost.datum => slot <> None)
                   [Some (PgHost.Plain "1"); Some (PgHost.Plain "late")])
    by (repeat constructor; discriminate).
  rewrite (skip_nulls_only_for_nulls PgHost.pg_host
             (PgHost.one_tuple (PgHost.buf + 8)
                [Some (PgHost.Plain "1"); Some (PgHost.Plain "late")])
             "{" (rd_att PgHost.orders) (PgHost.buf + 8)
             [Some (PgHost.Plain "1"); Some (PgHost.Plain "late")]
             eq_refl Hall (le_n 2)).
  reflexivity.
Defined.
